(** * Alert manager of the infrastructure cost monitor

    A shallow embedding of [alert_system/alert_manager.py]: the threshold
    evaluators ([check_cost_spike], [check_budget_exceeded],
    [check_anomaly]), the suppression gate ([_should_send_alert]), the
    dispatcher ([send_alert], [_send_slack_alert], [_send_email_alert]),
    the history query ([get_alert_history]) and the statistics
    ([get_alert_stats]); and of the callers of the manager: the trigger
    script ([trigger_alerts.py]), the normalisation of anomaly records by
    the pipeline ([ai_ml/cost_ai_pipeline.py]) and the summary of the
    dashboard ([dashboard/app.py]).

    Modelling conventions.
    - Python dictionaries with string keys are [gmap string value]; the
      last-sent dictionary, whose keys are arbitrary hashable objects, is a
      [gmap value datetime].
    - Python numbers are exact rationals ([Q]); rounding of binary floating
      point is not modelled.
    - The wall clock and the network are an environment carried by the
      world: the n-th reading of [datetime.now()] is [clock n], the n-th
      webhook POST answers [webhook_reply n], the n-th SMTP session ends as
      [smtp_reply n].
    - Methods are computations in a state-and-exception monad over the
      world; an exception leaves the state as it was when it was raised.
    - Logging and debug printing have no effect on the manager and are
      left out. *)

From Stdlib Require Import ZArith QArith Ascii String Lia.
From stdpp Require Import gmap strings list fin_maps.

Local Open Scope Z_scope.

(* ===================================================================== *)
(** ** Dictionary values *)
(* ===================================================================== *)

(** The values found in the records handled by the manager: [None], a
    string, or a number. *)
Inductive value : Type :=
  | VNone
  | VStr (s : string)
  | VNum (q : Q).

#[global] Instance Q_eq_dec : EqDecision Q.
Proof. solve_decision. Defined.

#[global] Instance value_eq_dec : EqDecision value.
Proof. solve_decision. Defined.

#[global] Program Instance Q_countable : Countable Q :=
  inj_countable' (fun q => (Qnum q, Qden q)) (fun p => Qmake (fst p) (snd p)) _.
Next Obligation. by intros []. Qed.

#[global] Program Instance value_countable : Countable value :=
  inj_countable'
    (fun v => match v with
              | VNone => inl tt
              | VStr s => inr (inl s)
              | VNum q => inr (inr q)
              end)
    (fun x => match x with
              | inl _ => VNone
              | inr (inl s) => VStr s
              | inr (inr q) => VNum q
              end) _.
Next Obligation. by intros []. Qed.

(** A record (the [Dict[str, Any]] of the source). *)
Abbreviation dict := (gmap string value).

(** Exceptions that the modelled code can raise. *)
Inductive exn : Type :=
  | KeyError (key : string)
  | TypeError
  | ValueError
  | AttributeError
  | ZeroDivisionError
  | ConnectionError
  | SMTPException.

Inductive outcome (A : Type) : Type :=
  | Ok (a : A)
  | Raise (e : exn).
Arguments Ok {A} a.
Arguments Raise {A} e.

Definition is_ok {A} (o : outcome A) : bool :=
  match o with Ok _ => true | Raise _ => false end.

(** [d[key]] *)
Definition getitem (d : dict) (key : string) : outcome value :=
  match d !! key with
  | Some v => Ok v
  | None => Raise (KeyError key)
  end.

(** [d.get(key, default)] *)
Definition get_default (d : dict) (key : string) (dflt : value) : value :=
  default dflt (d !! key).

(* ===================================================================== *)
(** ** Python's value operations used by the manager *)
(* ===================================================================== *)

(** [a == b]: never raises; values of different kinds are unequal. *)
Definition py_eq (a b : value) : bool :=
  match a, b with
  | VNone, VNone => true
  | VStr s, VStr t => String.eqb s t
  | VNum p, VNum q => Qeq_bool p q
  | _, _ => false
  end.

(** [a - b]: defined on numbers only. *)
Definition py_sub (a b : value) : outcome Q :=
  match a, b with
  | VNum p, VNum q => Ok (p - q)%Q
  | _, _ => Raise TypeError
  end.

(** [p / q] on numbers. *)
Definition py_div (p q : Q) : outcome Q :=
  if Qeq_bool q 0 then Raise ZeroDivisionError else Ok (p / q)%Q.

(** [a > b]: numbers compare by value, strings lexicographically (on
    UTF-8 bytes, which is the order of code points), every other
    combination raises [TypeError]. *)
Definition py_gt (a b : value) : outcome bool :=
  match a, b with
  | VNum p, VNum q => Ok (negb (Qle_bool p q))
  | VStr s, VStr t => Ok (String.ltb t s)
  | _, _ => Raise TypeError
  end.

(** [a > float('inf')]: false for every (finite) number, [TypeError] for a
    value that is not a number. *)
Definition py_gt_inf (a : value) : outcome bool :=
  match a with
  | VNum _ => Ok false
  | _ => Raise TypeError
  end.

(** [a >= x] and [a > x] for a number [x] (a threshold field or a
    literal). *)
Definition py_ge_num (a : value) (x : Q) : outcome bool :=
  match a with
  | VNum p => Ok (Qle_bool x p)
  | _ => Raise TypeError
  end.

Definition py_gt_num (a : value) (x : Q) : outcome bool :=
  match a with
  | VNum p => Ok (negb (Qle_bool p x))
  | _ => Raise TypeError
  end.

(** Truthiness of a string: [if s:] *)
Definition truthy (s : string) : bool := negb (String.eqb s "").

(* ===================================================================== *)
(** ** Naive datetimes *)
(* ===================================================================== *)

Record datetime : Type := mk_datetime {
  year : Z; month : Z; day : Z;
  hour : Z; minute : Z; second : Z; microsecond : Z
}.

#[global] Instance datetime_eq_dec : EqDecision datetime.
Proof. solve_decision. Defined.

Definition is_leap (y : Z) : bool :=
  (y mod 4 =? 0) && (negb (y mod 100 =? 0) || (y mod 400 =? 0)).

Definition days_before_year (y : Z) : Z :=
  let y1 := y - 1 in y1 * 365 + y1 / 4 - y1 / 100 + y1 / 400.

Definition days_in_month (y m : Z) : Z :=
  if m =? 2 then (if is_leap y then 29 else 28)
  else if (m =? 4) || (m =? 6) || (m =? 9) || (m =? 11) then 30
  else 31.

(** Days of the year before the first day of month [m]. *)
Definition days_before_month (y m : Z) : Z :=
  nth (Z.to_nat m) [0; 0; 31; 59; 90; 120; 151; 181; 212; 243; 273; 304; 334] 0
  + (if (2 <? m) && is_leap y then 1 else 0).

(** Proleptic Gregorian ordinal, 0001-01-01 being day 1. *)
Definition ymd2ord (y m d : Z) : Z :=
  days_before_year y + days_before_month y m + d.

(** Microseconds since the start of day 0: the position of a datetime on
    the time line; subtraction and comparison of datetimes go through it. *)
Definition to_microseconds (t : datetime) : Z :=
  ((ymd2ord (year t) (month t) (day t) * 86400
    + hour t * 3600 + minute t * 60 + second t) * 1000000)
  + microsecond t.

(** A [timedelta], in microseconds. *)
Definition timedelta := Z.

(** [a - b] for two datetimes. *)
Definition dt_sub (a b : datetime) : timedelta :=
  to_microseconds a - to_microseconds b.

(** [timedelta(hours=h)] *)
Definition timedelta_hours (h : Z) : timedelta := h * 3600 * 1000000.

(** [td.total_seconds()] *)
Definition total_seconds (td : timedelta) : Q := (td # 1000000)%Q.

(** [a > now - td] for a datetime [a]; the difference is not materialised
    as a datetime, the comparison is made on the time line. *)
Definition dt_after (a now : datetime) (td : timedelta) : bool :=
  to_microseconds now - td <? to_microseconds a.

Definition valid_datetime (t : datetime) : bool :=
  (1 <=? year t) && (year t <=? 9999)
  && (1 <=? month t) && (month t <=? 12)
  && (1 <=? day t) && (day t <=? days_in_month (year t) (month t))
  && (0 <=? hour t) && (hour t <? 24)
  && (0 <=? minute t) && (minute t <? 60)
  && (0 <=? second t) && (second t <? 60)
  && (0 <=? microsecond t) && (microsecond t <? 1000000).

(** *** Rendering and parsing *)

Definition digit_char (n : Z) : ascii :=
  ascii_of_nat (48 + Z.to_nat (n mod 10)).

(** The [width] low decimal digits of [n], most significant first, in
    front of [acc]. *)
Fixpoint zpad_acc (width : nat) (n : Z) (acc : string) : string :=
  match width with
  | O => acc
  | S w => zpad_acc w (n / 10) (String (digit_char n) acc)
  end.

Definition zpad (width : nat) (n : Z) : string := zpad_acc width n "".

Definition digit_val (c : ascii) : option Z :=
  let n := Z.of_nat (nat_of_ascii c) in
  if (48 <=? n) && (n <=? 57) then Some (n - 48) else None.

Fixpoint parse_digits (acc : Z) (s : string) : option Z :=
  match s with
  | EmptyString => Some acc
  | String c r =>
      match digit_val c with
      | Some d => parse_digits (acc * 10 + d) r
      | None => None
      end
  end.

(** [t.isoformat()]: [YYYY-MM-DDTHH:MM:SS], followed by [.ffffff] when the
    microsecond is not zero. *)
Definition isoformat (t : datetime) : string :=
  zpad 4 (year t) +:+ "-" +:+ zpad 2 (month t) +:+ "-" +:+ zpad 2 (day t)
  +:+ "T" +:+ zpad 2 (hour t) +:+ ":" +:+ zpad 2 (minute t)
  +:+ ":" +:+ zpad 2 (second t)
  +:+ (if microsecond t =? 0 then "" else "." +:+ zpad 6 (microsecond t)).

(** [t.strftime("%Y-%m-%d-%H")], the year on four digits (as the C
    library renders the years from 1000 on). *)
Definition strftime_hour (t : datetime) : string :=
  zpad 4 (year t) +:+ "-" +:+ zpad 2 (month t) +:+ "-" +:+ zpad 2 (day t)
  +:+ "-" +:+ zpad 2 (hour t).

(** [t.replace(minute=0, second=0, microsecond=0)] *)
Definition replace_to_hour (t : datetime) : datetime :=
  {| year := year t; month := month t; day := day t; hour := hour t;
     minute := 0; second := 0; microsecond := 0 |}.

Definition char_at (s : string) (i : nat) (c : ascii) : bool :=
  match String.get i s with
  | Some c' => Ascii.eqb c c'
  | None => false
  end.

Definition parse_field (s : string) (start len : nat) : option Z :=
  parse_digits 0 (String.substring start len s).

(** [datetime.fromisoformat(s)] on the two shapes that [isoformat] emits
    for a naive datetime (any single character may separate date and
    time); [None] stands for [ValueError].  The library accepts further
    ISO 8601 shapes, which this model does not cover. *)
Definition fromisoformat (s : string) : option datetime :=
  let n := String.length s in
  if (Nat.eqb n 19 || (Nat.eqb n 26 && char_at s 19 "."))
     && char_at s 4 "-" && char_at s 7 "-"
     && char_at s 13 ":" && char_at s 16 ":"
  then
    y ← parse_field s 0 4;
    mo ← parse_field s 5 2;
    d ← parse_field s 8 2;
    h ← parse_field s 11 2;
    mi ← parse_field s 14 2;
    se ← parse_field s 17 2;
    us ← (if Nat.eqb n 19 then Some 0 else parse_field s 20 6);
    let t := mk_datetime y mo d h mi se us in
    if valid_datetime t then Some t else None
  else None.

(* ===================================================================== *)
(** ** Configuration *)
(* ===================================================================== *)

Record AlertThreshold : Type := mk_threshold {
  service : string;
  threshold_amount : Q;
  threshold_percentage : Q;
  time_window_hours : Z;
  alert_type : string   (* 'cost_spike', 'anomaly', 'budget_exceeded' *)
}.

Record AlertConfig : Type := mk_config {
  slack_webhook_url : string;
  email_smtp_server : string;
  email_smtp_port : Z;
  email_username : string;
  email_password : string;
  email_recipients : list string;
  escalation_recipients : list string;
  alert_cooldown_minutes : Z;   (* default 30 *)
  max_alerts_per_hour : Z       (* default 10 *)
}.

Definition default_thresholds : list AlertThreshold :=
  [ mk_threshold "all" 100 50 24 "cost_spike";
    mk_threshold "all" 500 100 24 "budget_exceeded";
    mk_threshold "all" 50 25 1 "anomaly" ].

(** [_load_thresholds]: the thresholds read from the configuration file
    when it exists and loads, the built-in ones otherwise. *)
Definition _load_thresholds (file : option (list AlertThreshold))
  : list AlertThreshold :=
  match file with
  | Some ths => ths
  | None => default_thresholds
  end.

(* ===================================================================== *)
(** ** The manager, its environment and the monad of its methods *)
(* ===================================================================== *)

Record AlertManager : Type := mk_manager {
  config : AlertConfig;
  thresholds : list AlertThreshold;
  alert_history : list dict;
  last_alert_time : gmap value datetime;
  alert_count_hourly : gmap string Z
}.

(** [AlertManager.__init__] *)
Definition new_manager (cfg : AlertConfig)
    (file : option (list AlertThreshold)) : AlertManager :=
  {| config := cfg; thresholds := _load_thresholds file;
     alert_history := []; last_alert_time := ∅; alert_count_hourly := ∅ |}.

(** What [requests.post] does: it returns a response with a status code,
    or raises. *)
Inductive http_outcome : Type :=
  | HttpResponse (status_code : Z)
  | HttpError.

(** How an SMTP session (connect, STARTTLS, login, send) ends. *)
Inductive smtp_outcome : Type :=
  | SmtpSent
  | SmtpFailure.

(** A piece interpolated into a message template. *)
Inductive piece : Type :=
  | PValue (v : value)             (* {x} *)
  | PFloat (digits : nat) (q : Q)  (* {x:.2f}, {x:.1f} *)
  | PTitle (s : string)            (* {x.replace('_', ' ').title()} *)
  | PJson (d : dict).              (* {json.dumps(x, indent=2)} *)

(** A formatted message: the template used and the pieces interpolated
    into it, in order.  The fixed text of the templates is not modelled. *)
Record message : Type := mk_message {
  template : string;
  pieces : list piece
}.

Inductive event : Type :=
  | EvSleep (seconds : Z)
  | EvSlackPost (url : string) (text : message)
  | EvEmail (server : string) (port : Z) (sender : string)
            (recipients : list string) (subject body : message)
  | EvSaveHistory (history : list dict).

Record Env : Type := mk_env {
  clock : nat -> datetime;
  webhook_reply : nat -> http_outcome;
  smtp_reply : nat -> smtp_outcome
}.

Record World : Type := mk_world {
  manager : AlertManager;
  env : Env;
  clock_reads : nat;   (* readings of [datetime.now()] made so far *)
  posts : nat;         (* webhook POSTs made so far *)
  mails : nat;         (* SMTP sessions opened so far *)
  trace : list event   (* effects on the outside world, oldest first *)
}.

Definition M (A : Type) : Type := World -> outcome A * World.

Definition ret {A} (a : A) : M A := fun w => (Ok a, w).

Definition raise {A} (e : exn) : M A := fun w => (Raise e, w).

Definition bind {A B} (c : M A) (k : A -> M B) : M B :=
  fun w =>
    match c w with
    | (Ok a, w') => k a w'
    | (Raise e, w') => (Raise e, w')
    end.

Declare Scope py_scope.
Delimit Scope py_scope with py.
Notation "x <~ c ;~ k" := (bind c (fun x => k))
  (at level 200, c at level 100, k at level 200, right associativity) : py_scope.
Notation "c ;~ k" := (bind c (fun _ => k))
  (at level 200, k at level 200, right associativity) : py_scope.
Local Open Scope py_scope.

Definition lift {A} (o : outcome A) : M A := fun w => (o, w).

(** [try: c except Exception: h] *)
Definition try_except {A} (c : M A) (h : exn -> M A) : M A :=
  fun w =>
    match c w with
    | (Ok a, w') => (Ok a, w')
    | (Raise e, w') => h e w'
    end.

Definition get_self : M AlertManager := fun w => (Ok (manager w), w).

Definition modify_self (f : AlertManager -> AlertManager) : M unit :=
  fun w => (Ok tt, {| manager := f (manager w); env := env w;
                      clock_reads := clock_reads w; posts := posts w;
                      mails := mails w; trace := trace w |}).

(** [datetime.now()] *)
Definition now : M datetime :=
  fun w => (Ok (clock (env w) (clock_reads w)),
            {| manager := manager w; env := env w;
               clock_reads := S (clock_reads w); posts := posts w;
               mails := mails w; trace := trace w |}).

Definition emit (ev : event) : M unit :=
  fun w => (Ok tt, {| manager := manager w; env := env w;
                      clock_reads := clock_reads w; posts := posts w;
                      mails := mails w; trace := trace w ++ [ev] |}).

(** [time.sleep(n)] *)
Definition sleep (n : Z) : M unit := emit (EvSleep n).

(** [requests.post(url, json=payload, timeout=10)] *)
Definition requests_post (url : string) (text : message) : M http_outcome :=
  fun w => (Ok (webhook_reply (env w) (posts w)),
            {| manager := manager w; env := env w;
               clock_reads := clock_reads w; posts := S (posts w);
               mails := mails w; trace := trace w ++ [EvSlackPost url text] |}).

(** The SMTP session of [_send_email_alert]. *)
Definition smtp_session (server : string) (port : Z) (sender : string)
    (recipients : list string) (subject body : message) : M unit :=
  fun w =>
    let w' := {| manager := manager w; env := env w;
                 clock_reads := clock_reads w; posts := posts w;
                 mails := S (mails w);
                 trace := trace w ++ [EvEmail server port sender recipients subject body] |} in
    match smtp_reply (env w) (mails w) with
    | SmtpSent => (Ok tt, w')
    | SmtpFailure => (Raise SMTPException, w')
    end.

(** Updates of the manager's attributes. *)
Definition set_alert_history (h : list dict) (m : AlertManager) : AlertManager :=
  {| config := config m; thresholds := thresholds m; alert_history := h;
     last_alert_time := last_alert_time m;
     alert_count_hourly := alert_count_hourly m |}.

Definition set_last_alert_time (l : gmap value datetime) (m : AlertManager)
  : AlertManager :=
  {| config := config m; thresholds := thresholds m;
     alert_history := alert_history m; last_alert_time := l;
     alert_count_hourly := alert_count_hourly m |}.

Definition set_alert_count_hourly (c : gmap string Z) (m : AlertManager)
  : AlertManager :=
  {| config := config m; thresholds := thresholds m;
     alert_history := alert_history m; last_alert_time := last_alert_time m;
     alert_count_hourly := c |}.

(** The key under which a value is stored in a Python dictionary: equal
    numbers are one key. *)
Definition dict_key (v : value) : value :=
  match v with
  | VNum q => VNum (Qred q)
  | _ => v
  end.

(* ===================================================================== *)
(** ** Message formatting *)
(* ===================================================================== *)

#[global] Instance outcome_ret : MRet outcome := fun A a => Ok a.

#[global] Instance outcome_bind : MBind outcome :=
  fun A B k o => match o with Ok a => k a | Raise e => Raise e end.

(** [{alert[key]}] *)
Definition fmt_value (alert : dict) (key : string) : outcome piece :=
  v ← getitem alert key; Ok (PValue v).

(** [{alert[key]:.Nf}]: a number is required. *)
Definition fmt_float (digits : nat) (alert : dict) (key : string) : outcome piece :=
  v ← getitem alert key;
  match v with
  | VNum q => Ok (PFloat digits q)
  | VStr _ => Raise ValueError
  | VNone => Raise TypeError
  end.

(** [{alert[key].replace('_', ' ').title()}]: a string is required. *)
Definition fmt_title (alert : dict) (key : string) : outcome piece :=
  v ← getitem alert key;
  match v with
  | VStr s => Ok (PTitle s)
  | _ => Raise AttributeError
  end.

(** The interpolations of an f-string are evaluated from left to right;
    the first one that raises ends the evaluation. *)
Fixpoint collect (l : list (outcome piece)) : outcome (list piece) :=
  match l with
  | [] => Ok []
  | o :: rest => p ← o; ps ← collect rest; Ok (p :: ps)
  end.

Definition _format_cost_spike_slack_message (alert : dict) : outcome message :=
  severity ← getitem alert "severity";
  let emoji := if py_eq severity (VStr "critical")
               then "rotating_light" else "warning" in
  ps ← collect [ fmt_value alert "service";
                 fmt_float 2 alert "current_cost";
                 fmt_float 2 alert "previous_cost";
                 fmt_float 2 alert "increase_amount";
                 fmt_float 1 alert "increase_percentage";
                 fmt_float 2 alert "threshold_amount";
                 fmt_float 1 alert "threshold_percentage";
                 fmt_value alert "timestamp" ];
  Ok (mk_message "Cost Spike Alert" (PValue (VStr emoji) :: ps)).

Definition _format_budget_exceeded_slack_message (alert : dict) : outcome message :=
  ps ← collect [ fmt_value alert "service";
                 fmt_float 2 alert "current_cost";
                 fmt_float 2 alert "budget_limit";
                 fmt_float 2 alert "exceeded_amount";
                 fmt_value alert "timestamp" ];
  Ok (mk_message "Budget Exceeded Alert" ps).

Definition _format_anomaly_slack_message (alert : dict) : outcome message :=
  severity ← getitem alert "severity";
  let emoji := if py_eq severity (VStr "medium")
               then "mag" else "rotating_light" in
  ps ← collect [ fmt_value alert "service";
                 fmt_float 2 alert "anomaly_score";
                 fmt_float 2 alert "cost_impact";
                 fmt_value alert "timestamp" ];
  Ok (mk_message "Anomaly Detected" (PValue (VStr emoji) :: ps)).

Definition _format_generic_slack_message (alert : dict) : outcome message :=
  ps ← collect [ fmt_title alert "type";
                 fmt_value alert "service";
                 Ok (PJson alert);
                 fmt_value alert "timestamp" ];
  Ok (mk_message "Alert" ps).

Definition _format_email_message (alert : dict) : outcome message :=
  ty ← getitem alert "type";
  if py_eq ty (VStr "cost_spike") then
    ps ← collect [ fmt_value alert "service";
                   fmt_float 2 alert "current_cost";
                   fmt_float 2 alert "previous_cost";
                   fmt_float 2 alert "increase_amount";
                   fmt_float 1 alert "increase_percentage";
                   fmt_float 2 alert "threshold_amount";
                   fmt_float 1 alert "threshold_percentage";
                   fmt_value alert "timestamp" ];
    Ok (mk_message "GCP Cost Spike Alert" ps)
  else if py_eq ty (VStr "budget_exceeded") then
    ps ← collect [ fmt_value alert "service";
                   fmt_float 2 alert "current_cost";
                   fmt_float 2 alert "budget_limit";
                   fmt_float 2 alert "exceeded_amount";
                   fmt_value alert "timestamp" ];
    Ok (mk_message "GCP Budget Exceeded Alert" ps)
  else if py_eq ty (VStr "anomaly") then
    ps ← collect [ fmt_value alert "service";
                   fmt_float 2 alert "anomaly_score";
                   fmt_float 2 alert "cost_impact";
                   fmt_value alert "timestamp" ];
    Ok (mk_message "GCP Anomaly Alert" ps)
  else
    ps ← collect [ fmt_title alert "type";
                   fmt_value alert "service";
                   Ok (PJson alert);
                   fmt_value alert "timestamp" ];
    Ok (mk_message "GCP Alert" ps).

(** [datetime.fromisoformat(v)] for a dictionary value. *)
Definition fromisoformat_value (v : value) : outcome datetime :=
  match v with
  | VStr s =>
      match fromisoformat s with
      | Some t => Ok t
      | None => Raise ValueError
      end
  | _ => Raise TypeError
  end.

(** The comprehension of [get_alert_history]: the alerts whose timestamp
    is later than [cutoff = now - td], in order. *)
Fixpoint recent_alerts (t : datetime) (td : timedelta) (history : list dict)
  : outcome (list dict) :=
  match history with
  | [] => Ok []
  | alert :: rest =>
      ts ← getitem alert "timestamp";
      stamp ← fromisoformat_value ts;
      kept ← recent_alerts t td rest;
      Ok (if dt_after stamp t td then alert :: kept else kept)
  end.

(* ===================================================================== *)
(** ** The methods of [AlertManager] *)
(* ===================================================================== *)

Definition Qlt_bool (a b : Q) : bool := negb (Qle_bool b a).

Section Methods.

(** [str(x)] for a number [x]: Python's rendering of numbers is not part
    of the program; the methods are parametric in it. *)
Variable float_str : Q -> string.

(** [f"{v}"] *)
Definition py_str (v : value) : string :=
  match v with
  | VNone => "None"
  | VStr s => s
  | VNum q => float_str q
  end.

(** [f"{alert['type']}_{alert['service']}"] *)
Definition alert_key (alert : dict) : outcome string :=
  ty ← getitem alert "type";
  sv ← getitem alert "service";
  Ok (py_str ty +:+ "_" +:+ py_str sv).

Definition _should_send_alert (alert : dict) : M bool :=
  key <~ lift (alert_key alert) ;~
  t <~ now ;~
  self <~ get_self ;~
  (* Check cooldown *)
  if match last_alert_time self !! VStr key with
     | Some last =>
         Qlt_bool (total_seconds (dt_sub t last))
                  (inject_Z (alert_cooldown_minutes (config self) * 60))
     | None => false
     end
  then ret false
  else
    (* Check rate limiting *)
    let hour_key := strftime_hour t in
    (match alert_count_hourly self !! hour_key with
     | None => modify_self (fun m =>
                 set_alert_count_hourly (<[hour_key := 0]> (alert_count_hourly m)) m)
     | Some _ => ret tt
     end) ;~
    self <~ get_self ;~
    count <~ (match alert_count_hourly self !! hour_key with
              | Some c => ret c
              | None => raise (KeyError hour_key)
              end) ;~
    if max_alerts_per_hour (config self) <=? count then ret false else ret true.

(** The scope and type test shared by the three evaluators. *)
Definition threshold_matches (th : AlertThreshold) (svc : value) (ty : string) : bool :=
  (py_eq (VStr (service th)) svc || String.eqb (service th) "all")
  && String.eqb (alert_type th) ty.

Definition cost_spike_alert (svc current_cost previous_cost : value)
    (cost_increase cost_increase_percentage : Q) (th : AlertThreshold)
    (t : datetime) : dict :=
  list_to_map
    [ ("type", VStr "cost_spike");
      ("service", svc);
      ("current_cost", current_cost);
      ("previous_cost", previous_cost);
      ("increase_amount", VNum cost_increase);
      ("increase_percentage", VNum cost_increase_percentage);
      ("threshold_amount", VNum (threshold_amount th));
      ("threshold_percentage", VNum (threshold_percentage th));
      ("timestamp", VStr (isoformat t));
      ("severity", VStr (if Qlt_bool 100 cost_increase_percentage
                         then "high" else "medium")) ]%string.

(** The loop of [check_cost_spike] over the thresholds. *)
Fixpoint cost_spike_loop (ths : list AlertThreshold)
    (svc current_cost previous_cost : value)
    (cost_increase cost_increase_percentage : Q) : M (option dict) :=
  match ths with
  | [] => ret None
  | th :: rest =>
      if threshold_matches th svc "cost_spike"
         && (Qle_bool (threshold_amount th) cost_increase
             || Qle_bool (threshold_percentage th) cost_increase_percentage)
      then
        t <~ now ;~
        let alert := cost_spike_alert svc current_cost previous_cost
                       cost_increase cost_increase_percentage th t in
        ok <~ _should_send_alert alert ;~
        if ok then ret (Some alert)
        else cost_spike_loop rest svc current_cost previous_cost
               cost_increase cost_increase_percentage
      else cost_spike_loop rest svc current_cost previous_cost
             cost_increase cost_increase_percentage
  end.

Definition check_cost_spike (cost_data : dict) : M (option dict) :=
  let current_cost := get_default cost_data "current_cost" (VNum 0) in
  let previous_cost := get_default cost_data "previous_cost" (VNum 0) in
  let svc := get_default cost_data "service" (VStr "unknown") in
  if py_eq previous_cost (VNum 0) then ret None
  else
    cost_increase <~ lift (py_sub current_cost previous_cost) ;~
    ratio <~ lift (match previous_cost with
                   | VNum p => py_div cost_increase p
                   | _ => Raise TypeError
                   end) ;~
    let cost_increase_percentage := (ratio * 100)%Q in
    self <~ get_self ;~
    cost_spike_loop (thresholds self) svc current_cost previous_cost
      cost_increase cost_increase_percentage.

Definition budget_exceeded_alert (svc current_cost budget_limit : value)
    (exceeded : Q) (t : datetime) : dict :=
  list_to_map
    [ ("type", VStr "budget_exceeded");
      ("service", svc);
      ("current_cost", current_cost);
      ("budget_limit", budget_limit);
      ("exceeded_amount", VNum exceeded);
      ("timestamp", VStr (isoformat t));
      ("severity", VStr "critical") ]%string.

Fixpoint budget_exceeded_loop (ths : list AlertThreshold)
    (svc current_cost budget_limit : value) : M (option dict) :=
  match ths with
  | [] => ret None
  | th :: rest =>
      if threshold_matches th svc "budget_exceeded" then
        exceeded <~ lift (py_sub current_cost budget_limit) ;~
        t <~ now ;~
        let alert := budget_exceeded_alert svc current_cost budget_limit exceeded t in
        ok <~ _should_send_alert alert ;~
        if ok then ret (Some alert)
        else budget_exceeded_loop rest svc current_cost budget_limit
      else budget_exceeded_loop rest svc current_cost budget_limit
  end.

Definition check_budget_exceeded (cost_data : dict) : M (option dict) :=
  let current_cost := get_default cost_data "current_cost" (VNum 0) in
  let svc := get_default cost_data "service" (VStr "unknown") in
  match cost_data !! "budget_limit" with
  | None =>
      (* budget_limit = float('inf') *)
      exceeds <~ lift (py_gt_inf current_cost) ;~
      ret None
  | Some budget_limit =>
      exceeds <~ lift (py_gt current_cost budget_limit) ;~
      if exceeds then
        self <~ get_self ;~
        budget_exceeded_loop (thresholds self) svc current_cost budget_limit
      else ret None
  end.

Definition anomaly_alert (svc anomaly_score cost_impact : value)
    (t : datetime) (high : bool) : dict :=
  list_to_map
    [ ("type", VStr "anomaly");
      ("service", svc);
      ("anomaly_score", anomaly_score);
      ("cost_impact", cost_impact);
      ("timestamp", VStr (isoformat t));
      ("severity", VStr (if high then "high" else "medium")) ]%string.

Fixpoint anomaly_loop (ths : list AlertThreshold)
    (svc anomaly_score cost_impact : value) : M (option dict) :=
  match ths with
  | [] => ret None
  | th :: rest =>
      if threshold_matches th svc "anomaly" then
        reached <~ lift (py_ge_num cost_impact (threshold_amount th)) ;~
        if reached then
          t <~ now ;~
          high <~ lift (py_gt_num anomaly_score (8 # 10)) ;~
          let alert := anomaly_alert svc anomaly_score cost_impact t high in
          ok <~ _should_send_alert alert ;~
          if ok then ret (Some alert)
          else anomaly_loop rest svc anomaly_score cost_impact
        else anomaly_loop rest svc anomaly_score cost_impact
      else anomaly_loop rest svc anomaly_score cost_impact
  end.

Definition check_anomaly (anomaly_data : dict) : M (option dict) :=
  let anomaly_score := get_default anomaly_data "anomaly_score" (VNum 0) in
  let svc := get_default anomaly_data "service" (VStr "unknown") in
  let cost_impact := get_default anomaly_data "cost_impact" (VNum 0) in
  self <~ get_self ;~
  anomaly_loop (thresholds self) svc anomaly_score cost_impact.

(** [_save_alert_history]: the whole history is written to the history
    file; a failure of the write is logged and otherwise ignored. *)
Definition _save_alert_history : M unit :=
  self <~ get_self ;~
  emit (EvSaveHistory (alert_history self)).

Definition _send_slack_alert (alert : dict) : M unit :=
  self <~ get_self ;~
  let url := slack_webhook_url (config self) in
  if negb (truthy url) then ret tt
  else
    ty <~ lift (getitem alert "type") ;~
    text <~ lift (if py_eq ty (VStr "cost_spike")
                  then _format_cost_spike_slack_message alert
                  else if py_eq ty (VStr "budget_exceeded")
                  then _format_budget_exceeded_slack_message alert
                  else if py_eq ty (VStr "anomaly")
                  then _format_anomaly_slack_message alert
                  else _format_generic_slack_message alert) ;~
    try_except
      (response <~ requests_post url text ;~
       match response with
       | HttpResponse _ => ret tt      (* the status code is only logged *)
       | HttpError => raise ConnectionError
       end)
      (fun _ => ret tt).

Definition _send_email_alert (alert : dict) : M unit :=
  self <~ get_self ;~
  let cfg := config self in
  if negb (truthy (email_smtp_server cfg) && truthy (email_username cfg)
           && truthy (email_password cfg)
           && negb (Nat.eqb (length (email_recipients cfg)) 0))
  then ret tt
  else
    subject <~ lift (p ← fmt_title alert "type";
                     Ok (mk_message "GCP Cost Alert" [p])) ;~
    body <~ lift (_format_email_message alert) ;~
    smtp_session (email_smtp_server cfg) (email_smtp_port cfg)
      (email_username cfg) (email_recipients cfg) subject body.

Definition send_alert (alert : dict) : M bool :=
  ok <~ _should_send_alert alert ;~
  if negb ok then ret false
  else
    (* Add delay before sending to prevent rate limiting *)
    sleep 1 ;~
    self <~ get_self ;~
    let cfg := config self in
    (* Send to Slack *)
    success <~ (if truthy (slack_webhook_url cfg)
                then try_except (_send_slack_alert alert ;~ ret true)
                                (fun _ => ret false)
                else ret true) ;~
    (* Send to Email *)
    success <~ (if truthy (email_smtp_server cfg)
                then try_except (_send_email_alert alert ;~ ret success)
                                (fun _ => ret false)
                else ret success) ;~
    if success then
      (* Save to history *)
      modify_self (fun m => set_alert_history (alert_history m ++ [alert]) m) ;~
      _save_alert_history ;~
      (* Update tracking *)
      let svc := get_default alert "service" (VStr "unknown") in
      t <~ now ;~
      modify_self (fun m =>
        set_last_alert_time (<[dict_key svc := t]> (last_alert_time m)) m) ;~
      (* Update hourly count *)
      t' <~ now ;~
      let hour_key := isoformat (replace_to_hour t') in
      modify_self (fun m =>
        set_alert_count_hourly
          (<[hour_key := default 0 (alert_count_hourly m !! hour_key) + 1]>
             (alert_count_hourly m)) m) ;~
      ret true
    else ret false.

Definition get_alert_history (hours : Z) : M (list dict) :=
  t <~ now ;~
  self <~ get_self ;~
  lift (recent_alerts t (timedelta_hours hours) (alert_history self)).

End Methods.

(* ===================================================================== *)
(** ** Vocabulary of the statements *)
(* ===================================================================== *)

(** The decision of the suppression gate for the key [key] at time [t],
    read off [_should_send_alert]. *)
Definition cooldown_active (m : AlertManager) (key : string) (t : datetime) : bool :=
  match last_alert_time m !! VStr key with
  | Some last =>
      Qlt_bool (total_seconds (dt_sub t last))
               (inject_Z (alert_cooldown_minutes (config m) * 60))
  | None => false
  end.

(** The counter of an hour key, as [d.get(key, 0)] reads it. *)
Definition hourly_count (m : AlertManager) (hour_key : string) : Z :=
  default 0 (alert_count_hourly m !! hour_key).

Definition rate_limited (m : AlertManager) (t : datetime) : bool :=
  max_alerts_per_hour (config m) <=? hourly_count m (strftime_hour t).

Definition gate (m : AlertManager) (key : string) (t : datetime) : bool :=
  negb (cooldown_active m key t) && negb (rate_limited m t).

(** The manager after the gate has looked at the hour of [t]: the counter
    of that hour exists. *)
Definition touch_hour (t : datetime) (m : AlertManager) : AlertManager :=
  match alert_count_hourly m !! strftime_hour t with
  | Some _ => m
  | None => set_alert_count_hourly (<[strftime_hour t := 0]> (alert_count_hourly m)) m
  end.

(** The next reading of the clock. *)
Definition next_time (w : World) : datetime := clock (env w) (clock_reads w).

(** The world after one reading of the clock, with manager [m]. *)
Definition tick_with (m : AlertManager) (w : World) : World :=
  {| manager := m; env := env w; clock_reads := S (clock_reads w);
     posts := posts w; mails := mails w; trace := trace w |}.

(** Two managers that the suppression gate cannot tell apart and that
    hold the same history. *)
Record same_tracking (m m' : AlertManager) : Prop := {
  st_config : config m' = config m;
  st_thresholds : thresholds m' = thresholds m;
  st_history : alert_history m' = alert_history m;
  st_last : last_alert_time m' = last_alert_time m;
  st_count : forall k, hourly_count m' k = hourly_count m k;
  st_kept : forall k v, alert_count_hourly m !! k = Some v ->
                        alert_count_hourly m' !! k = Some v
}.

(** Seconds elapsed from [a] to [b]. *)
Definition seconds_between (a b : datetime) : Q := total_seconds (dt_sub b a).

(** The condition under which a cost-spike threshold qualifies. *)
Definition spike_condition (th : AlertThreshold) (current previous : Q) : Prop :=
  (threshold_amount th <= current - previous)%Q
  \/ (threshold_percentage th <= (current - previous) / previous * 100)%Q.

(** A field that is absent or holds a number. *)
Definition numeric_or_missing (d : dict) (key : string) : Prop :=
  d !! key = None \/ exists q, d !! key = Some (VNum q).

(** Every record of a history carries a timestamp that parses. *)
Definition timestamps_parse (history : list dict) : Prop :=
  Forall (fun a => exists s t, a !! "timestamp" = Some (VStr s)
                               /\ fromisoformat s = Some t) history.

(** Steps that leave the manager's tracking as the gate sees it, the
    environment and the outside world untouched. *)
Record quiet_step (w w' : World) : Prop := {
  qs_tracking : same_tracking (manager w) (manager w');
  qs_env : env w' = env w;
  qs_posts : posts w' = posts w;
  qs_mails : mails w' = mails w;
  qs_trace : trace w' = trace w
}.

(** One channel of [send_alert]: [try: c except Exception: success = False]. *)
Definition attempt (c : M unit) (success : bool) : M bool :=
  try_except (c ;~ ret success) (fun _ => ret false).

(** The channel phase of [send_alert]: the value of [success] after both
    channels. *)
Definition dispatch (alert : dict) : M bool :=
  self <~ get_self ;~
  let cfg := config self in
  success <~ (if truthy (slack_webhook_url cfg)
              then attempt (_send_slack_alert alert) true
              else ret true) ;~
  if truthy (email_smtp_server cfg)
  then attempt (_send_email_alert alert) success
  else ret success.

(** The bookkeeping of [send_alert] after a successful dispatch. *)
Definition record_delivery (alert : dict) : M bool :=
  modify_self (fun m => set_alert_history (alert_history m ++ [alert]) m) ;~
  _save_alert_history ;~
  let svc := get_default alert "service" (VStr "unknown") in
  t <~ now ;~
  modify_self (fun m =>
    set_last_alert_time (<[dict_key svc := t]> (last_alert_time m)) m) ;~
  t' <~ now ;~
  let hour_key := isoformat (replace_to_hour t') in
  modify_self (fun m =>
    set_alert_count_hourly
      (<[hour_key := default 0 (alert_count_hourly m !! hour_key) + 1]>
         (alert_count_hourly m)) m) ;~
  ret true.

(** The channels never touch the manager, the environment or the clock,
    and their failures never escape [dispatch]. *)
Record channel_step (w w' : World) : Prop := {
  cs_manager : manager w' = manager w;
  cs_env : env w' = env w;
  cs_clock : clock_reads w' = clock_reads w
}.

(** The world after the bookkeeping of a delivered alert. *)
Definition recorded (alert : dict) (w : World) : World :=
  let m := manager w in
  let t := clock (env w) (clock_reads w) in
  let t' := clock (env w) (S (clock_reads w)) in
  let hour_key := isoformat (replace_to_hour t') in
  {| manager :=
       {| config := config m; thresholds := thresholds m;
          alert_history := alert_history m ++ [alert];
          last_alert_time :=
            <[dict_key (get_default alert "service" (VStr "unknown")) := t]>
              (last_alert_time m);
          alert_count_hourly :=
            <[hour_key := hourly_count m hour_key + 1]> (alert_count_hourly m) |};
     env := env w; clock_reads := S (S (clock_reads w));
     posts := posts w; mails := mails w;
     trace := trace w ++ [EvSaveHistory (alert_history m ++ [alert])] |}.

(** A threshold of type [ty] whose scope is the service [svc] or "all". *)
Definition in_scope (th : AlertThreshold) (svc : value) (ty : string) : Prop :=
  alert_type th = ty /\ (svc = VStr (service th) \/ service th = "all"%string).

(** The record [d] with the field [key] filled in with [v] when absent. *)
Definition with_default (d : dict) (key : string) (v : value) : dict :=
  match d !! key with
  | Some _ => d
  | None => <[key := v]> d
  end.

(* ===================================================================== *)
(** ** Concrete scenarios *)
(* ===================================================================== *)

(** The result and the final world of a computation. *)
Definition result {A} (c : M A) (w : World) : outcome A := fst (c w).
Definition run {A} (c : M A) (w : World) : World := snd (c w).

(** An evaluator's result that holds a candidate. *)
Definition is_candidate (r : outcome (option dict)) : bool :=
  match r with
  | Ok (Some _) => true
  | _ => false
  end.

(** The candidate inside the result of an evaluator. *)
Definition candidate_of (r : outcome (option dict)) : dict :=
  match r with
  | Ok (Some a) => a
  | _ => ∅
  end.

(** No scenario renders a number. *)
Definition plain_float_str (q : Q) : string := ""%string.

(** A clock that starts on 2024-03-05 at 10:00:00 and advances by one
    second per reading. *)
Definition demo_clock (n : nat) : datetime :=
  mk_datetime 2024 3 5 10 (Z.of_nat n / 60) (Z.of_nat n mod 60) 0.

Definition env_of (reply : http_outcome) : Env :=
  mk_env demo_clock (fun _ => reply) (fun _ => SmtpSent).

(** A manager right after construction. *)
Definition start (cfg : AlertConfig) (file : option (list AlertThreshold))
    (e : Env) : World :=
  mk_world (new_manager cfg file) e 0 0 0 [].

(** Webhook only, default cooldown (30 minutes) and rate limit (10). *)
Definition cfg_slack : AlertConfig :=
  mk_config "https://hooks.slack.com/services/T000/B000/XXXX" "" 587 "" "" [] [] 30 10.

(** Webhook only, at most two alerts per hour. *)
Definition cfg_two_per_hour : AlertConfig :=
  mk_config "https://hooks.slack.com/services/T000/B000/XXXX" "" 587 "" "" [] [] 30 2.

(** No channel at all. *)
Definition cfg_none : AlertConfig :=
  mk_config "" "" 587 "" "" [] [] 30 10.

Definition anomaly_record (svc : string) (cost_impact anomaly_score : Q) : dict :=
  list_to_map [ ("service", VStr svc); ("cost_impact", VNum cost_impact);
                ("anomaly_score", VNum anomaly_score) ]%string.

(** The candidate that [check_anomaly] builds at the [n]-th reading of
    the demo clock. *)
Definition anomaly_candidate (svc : string) (cost_impact anomaly_score : Q)
    (n : nat) : dict :=
  anomaly_alert (VStr svc) (VNum anomaly_score) (VNum cost_impact)
    (demo_clock n) (Qlt_bool (8 # 10) anomaly_score).

(** Scenario of C1: one anomaly of BigQuery, checked, delivered, and
    checked again two seconds later. *)
Definition c1_world0 : World := start cfg_slack None (env_of (HttpResponse 200)).
Definition c1_record : dict := anomaly_record "BigQuery" 75 (9 # 10).
Definition c1_alert : dict := anomaly_candidate "BigQuery" 75 (9 # 10) 0.
Definition c1_world1 : World :=
  run (check_anomaly plain_float_str c1_record) c1_world0.
Definition c1_world2 : World :=
  run (send_alert plain_float_str c1_alert) c1_world1.

(** Scenario of C2: three anomalies of three services within one hour,
    with at most two alerts per hour configured. *)
Definition c2_world0 : World :=
  start cfg_two_per_hour None (env_of (HttpResponse 200)).
Definition c2_alert1 : dict := anomaly_candidate "BigQuery" 75 (9 # 10) 0.
Definition c2_alert2 : dict := anomaly_candidate "Compute Engine" 80 (9 # 10) 5.
Definition c2_alert3 : dict := anomaly_candidate "Cloud SQL" 90 (9 # 10) 10.
Definition c2_world1 : World :=
  run (check_anomaly plain_float_str (anomaly_record "BigQuery" 75 (9 # 10))) c2_world0.
Definition c2_world2 : World := run (send_alert plain_float_str c2_alert1) c2_world1.
Definition c2_world3 : World :=
  run (check_anomaly plain_float_str (anomaly_record "Compute Engine" 80 (9 # 10))) c2_world2.
Definition c2_world4 : World := run (send_alert plain_float_str c2_alert2) c2_world3.
Definition c2_world5 : World :=
  run (check_anomaly plain_float_str (anomaly_record "Cloud SQL" 90 (9 # 10))) c2_world4.

(** Scenario of C3: the webhook is the only channel and answers with
    status 500, or cannot be reached at all. *)
Definition c3_world_500 : World := start cfg_slack None (env_of (HttpResponse 500)).
Definition c3_world_down : World := start cfg_slack None (env_of HttpError).

(** Scenario of C4: a general cost-spike threshold followed by a looser
    one for Compute Engine. *)
Definition c4_general : AlertThreshold := mk_threshold "all" 100 50 24 "cost_spike".
Definition c4_specific : AlertThreshold :=
  mk_threshold "Compute Engine" 1000 500 24 "cost_spike".
Definition c4_world : World :=
  start cfg_slack (Some [c4_general; c4_specific]) (env_of (HttpResponse 200)).
Definition c4_record : dict :=
  list_to_map [ ("service", VStr "Compute Engine"); ("current_cost", VNum 250);
                ("previous_cost", VNum 100) ]%string.

(** Scenario of C6: a record without budget limit, and a record whose
    current cost is not a number. *)
Definition c6_no_limit : dict :=
  list_to_map [ ("service", VStr "BigQuery"); ("current_cost", VNum 600) ]%string.
Definition c6_malformed : dict :=
  list_to_map [ ("service", VStr "BigQuery"); ("current_cost", VStr "n/a");
                ("previous_cost", VNum 100) ]%string.

(** Scenario of C9: an alert stamped four days before it is sent. *)
Definition c9_alert : dict :=
  anomaly_alert (VStr "BigQuery") (VNum (9 # 10)) (VNum 75)
    (mk_datetime 2024 3 1 9 30 0 0) true.
Definition c9_world1 : World := run (send_alert plain_float_str c9_alert) c1_world0.

(** Scenario of C7: no channel configured. *)
Definition c7_world0 : World := start cfg_none None (env_of (HttpResponse 200)).

(** Scenario of C8: a cost spike from 100 to 250, and a budget of 500
    exceeded by a cost of 600, on the built-in thresholds. *)
Definition c8_spike_record : dict :=
  list_to_map [ ("service", VStr "Compute Engine"); ("current_cost", VNum 250);
                ("previous_cost", VNum 100) ]%string.
Definition c8_budget_record : dict :=
  list_to_map [ ("service", VStr "BigQuery"); ("current_cost", VNum 600);
                ("budget_limit", VNum 500) ]%string.

(** Scenario of C10: a configuration that allows no alert at all. *)
Definition cfg_muted : AlertConfig :=
  mk_config "https://hooks.slack.com/services/T000/B000/XXXX" "" 587 "" "" [] [] 30 0.
Definition c10_world0 : World := start cfg_muted None (env_of (HttpResponse 200)).

(* ===================================================================== *)
(** ** Further vocabulary *)
(* ===================================================================== *)

(** The message that [_send_slack_alert] formats for an alert: the
    template is chosen by the type of the alert. *)
Definition slack_text (alert : dict) : outcome message :=
  ty ← getitem alert "type";
  if py_eq ty (VStr "cost_spike") then _format_cost_spike_slack_message alert
  else if py_eq ty (VStr "budget_exceeded")
  then _format_budget_exceeded_slack_message alert
  else if py_eq ty (VStr "anomaly") then _format_anomaly_slack_message alert
  else _format_generic_slack_message alert.

(** The email channel is fully configured: server, user name, password
    and at least one recipient. *)
Definition email_complete (cfg : AlertConfig) : bool :=
  truthy (email_smtp_server cfg) && truthy (email_username cfg)
  && truthy (email_password cfg)
  && negb (Nat.eqb (length (email_recipients cfg)) 0).

(** The test of the comprehension of [get_alert_history] on a record
    whose timestamp parses: the timestamp is later than [t - td]. *)
Definition is_recent (t : datetime) (td : timedelta) (alert : dict) : bool :=
  match alert !! "timestamp"%string with
  | Some (VStr s) =>
      match fromisoformat s with
      | Some stamp => dt_after stamp t td
      | None => false
      end
  | _ => false
  end.

(* ===================================================================== *)
(** ** [get_alert_stats] *)
(* ===================================================================== *)

(** The dictionary returned by [get_alert_stats]. *)
Record AlertStats : Type := mk_stats {
  total_alerts : Z;
  alerts_24h : Z;
  alerts_7d : Z;
  alert_types : gmap value Z
}.

(** The loop of [get_alert_stats] that counts the alerts by type. *)
Fixpoint count_types (history : list dict) (alert_types : gmap value Z)
  : outcome (gmap value Z) :=
  match history with
  | [] => Ok alert_types
  | alert :: rest =>
      alert_type ← getitem alert "type";
      count_types rest
        (<[dict_key alert_type := default 0 (alert_types !! dict_key alert_type) + 1]>
           alert_types)
  end.

Definition get_alert_stats : M AlertStats :=
  self <~ get_self ;~
  let total := Z.of_nat (length (alert_history self)) in
  recent <~ get_alert_history 24 ;~
  week <~ get_alert_history (24 * 7) ;~
  (* Count by type *)
  self <~ get_self ;~
  types <~ lift (count_types (alert_history self) ∅) ;~
  ret (mk_stats total (Z.of_nat (length recent)) (Z.of_nat (length week)) types).

(** The number of records of a history whose type is stored under the
    key [k]. *)
Definition count_of_type (k : value) (history : list dict) : Z :=
  Z.of_nat (length (List.filter
    (fun a => bool_decide (dict_key <$> a !! "type"%string = Some k)) history)).

(** Every record has a type and a service. *)
Definition keyed (history : list dict) : Prop :=
  Forall (fun a => is_Some (a !! "type"%string) /\ is_Some (a !! "service"%string))
         history.

(* ===================================================================== *)
(** ** Callers of the manager *)
(* ===================================================================== *)

(** [alert_manager = AlertManager(config)]: the caller works on a manager
    of its own. *)
Definition install (m : AlertManager) : M unit := modify_self (fun _ => m).

(** The four lines that [trigger_alerts] prints for an anomaly before it
    evaluates it: service, date, cost impact (two decimals) and
    description, each read with [anomaly[...]]. *)
Definition print_anomaly (anomaly : dict) : outcome unit :=
  _ ← fmt_value anomaly "service";
  _ ← fmt_value anomaly "date";
  _ ← fmt_float 2 anomaly "cost_impact";
  _ ← fmt_value anomaly "description";
  Ok tt.

(** The body of the loop of [trigger_alerts] (trigger_alerts.py): what
    is printed is not kept, only whether printing raises. *)
Definition process_anomaly (float_str : Q -> string) (anomaly : dict) : M unit :=
  lift (print_anomaly anomaly) ;~
  (* Check if this anomaly should trigger an alert *)
  alert <~ check_anomaly float_str anomaly ;~
  match alert with
  | Some a =>
      if bool_decide (a = ∅) then ret tt   (* [if alert:] on an empty dict *)
      else (success <~ send_alert float_str a ;~ ret tt)
  | None => ret tt
  end ;~
  (* Small delay between processing *)
  sleep 1.

(** [for i, anomaly in enumerate(anomalies, 1): ...] *)
Fixpoint trigger_loop (float_str : Q -> string) (anomalies : list dict) : M unit :=
  match anomalies with
  | [] => ret tt
  | anomaly :: rest =>
      process_anomaly float_str anomaly ;~ trigger_loop float_str rest
  end.

(** [trigger_alerts]: [config] is the configuration read from the
    configuration file ([None] when the file does not exist),
    [thresholds_file] the content of the thresholds file, [anomalies] the
    content of the anomalies file (empty when it does not exist). *)
Definition trigger_alerts (float_str : Q -> string) (config : option AlertConfig)
    (thresholds_file : option (list AlertThreshold)) (anomalies : list dict)
  : M unit :=
  match config with
  | None => ret tt
  | Some cfg =>
      install (new_manager cfg thresholds_file) ;~
      match anomalies with
      | [] => ret tt
      | _ => trigger_loop float_str anomalies
      end
  end.

(** Truthiness of a value: [None], the empty string and zero are false. *)
Definition py_truthy (v : value) : bool :=
  match v with
  | VNone => false
  | VStr s => truthy s
  | VNum q => negb (Qeq_bool q 0)
  end.

(** [d.get(key) or other] *)
Definition get_or (d : dict) (key : string) (other : value) : value :=
  match d !! key with
  | Some v => if py_truthy v then v else other
  | None => other
  end.

(** The record that the pipeline ([_check_and_trigger_alerts] of
    ai_ml/cost_ai_pipeline.py) and tests/test_alerts_direct.py build from
    an anomaly, in its old or new format, before they call
    [check_anomaly]. *)
Definition anomaly_data_of (anomaly : dict) : outcome dict :=
  let svc := get_or anomaly "service_desc"
               (get_default anomaly "service" (VStr "unknown")) in
  anomaly_score ←
    match anomaly !! "percentage_diff"%string with
    | Some (VNum p) => Ok (VNum (p / 100))
    | Some _ => Raise TypeError
    | None =>
        match anomaly !! "anomaly_score"%string with
        | Some v => Ok v
        | None => Ok (VNum 1)
        end
    end;
  let cost_impact := get_default anomaly "cost_impact" (VNum 0) in
  let description := get_default anomaly "description" (VStr "") in
  let severity := get_default anomaly "severity" (VStr "medium") in
  let timestamp := get_or anomaly "timestamp"
                     (get_default anomaly "detected_at" (VStr "")) in
  Ok (list_to_map
        [ ("service", svc); ("anomaly_score", anomaly_score);
          ("cost_impact", cost_impact); ("description", description);
          ("severity", severity); ("timestamp", timestamp) ]%string).

(** [DashboardData.get_alert_summary] (dashboard/app.py): [None] stands
    for the empty dictionary returned when there is no alert data. *)
Record AlertSummary : Type := mk_summary {
  summary_total_alerts : Z;
  summary_critical_alerts : Z;
  summary_high_alerts : Z
}.

Definition has_severity (sev : string) (a : dict) : bool :=
  py_eq (get_default a "severity" VNone) (VStr sev).

Definition get_alert_summary (alert_data : list dict) : option AlertSummary :=
  match alert_data with
  | [] => None
  | _ =>
      Some (mk_summary
              (Z.of_nat (length alert_data))
              (Z.of_nat (length (List.filter (has_severity "critical") alert_data)))
              (Z.of_nat (length (List.filter (has_severity "high") alert_data))))
  end.

(** An alert of type anomaly that carries the service and the cost impact
    of one of the records (with the defaults of [check_anomaly]). *)
Definition alert_of_record (anomalies : list dict) (a : dict) : Prop :=
  a !! "type"%string = Some (VStr "anomaly")
  /\ exists anomaly,
       anomaly ∈ anomalies
       /\ a !! "service"%string
          = Some (get_default anomaly "service" (VStr "unknown"))
       /\ a !! "cost_impact"%string
          = Some (get_default anomaly "cost_impact" (VNum 0)).

(* ===================================================================== *)
(** ** Further scenarios *)
(* ===================================================================== *)

(** An SMTP server without credentials or recipients; the email channel
    alone; webhook and email together. *)
Definition cfg_email_half : AlertConfig :=
  mk_config "" "smtp.example.com" 587 "" "" [] [] 30 10.
Definition cfg_email : AlertConfig :=
  mk_config "" "smtp.example.com" 587 "alerts@example.com" "secret"
    ["ops@example.com"%string] [] 30 10.
Definition cfg_both : AlertConfig :=
  mk_config "https://hooks.slack.com/services/T000/B000/XXXX" "smtp.example.com" 587
    "alerts@example.com" "secret" ["ops@example.com"%string] [] 30 10.

(** The webhook answers with status 200, every SMTP session fails. *)
Definition env_smtp_down : Env :=
  mk_env demo_clock (fun _ => HttpResponse 200) (fun _ => SmtpFailure).

Definition half_email_world : World :=
  start cfg_email_half None (env_of (HttpResponse 200)).
Definition email_down_world : World := start cfg_email None env_smtp_down.
Definition both_down_world : World := start cfg_both None env_smtp_down.

(** An alert that has a type and a service and nothing else. *)
Definition untimestamped_alert : dict :=
  list_to_map [ ("type", VStr "anomaly"); ("service", VStr "BigQuery") ]%string.

(** The world after that alert has been delivered by a manager without
    channels. *)
Definition poisoned_world : World :=
  run (send_alert plain_float_str untimestamped_alert) c7_world0.

(** The message inside a successful formatting. *)
Definition message_of (o : outcome message) : message :=
  match o with
  | Ok m => m
  | Raise _ => mk_message "" []
  end.

(** The record inside a successful normalisation. *)
Definition record_of (o : outcome dict) : dict :=
  match o with
  | Ok d => d
  | Raise _ => ∅
  end.

(** Records of the anomalies file: two complete ones, and one without
    date. *)
Definition file_record (svc date : string) (cost_impact : Q) : dict :=
  list_to_map [ ("service", VStr svc); ("date", VStr date);
                ("cost_impact", VNum cost_impact);
                ("description", VStr "unusual cost");
                ("anomaly_score", VNum (9 # 10)) ]%string.
Definition file_record1 : dict := file_record "BigQuery" "2024-03-04" 75.
Definition file_record2 : dict := file_record "Cloud SQL" "2024-03-04" 20.
Definition undated_record : dict :=
  list_to_map [ ("service", VStr "Compute Engine"); ("cost_impact", VNum 80);
                ("description", VStr "unusual cost") ]%string.

(** A record of the pipeline in the new format: 120 percent above the
    expected cost. *)
Definition pipeline_record : dict :=
  list_to_map [ ("service_desc", VStr "BigQuery"); ("percentage_diff", VNum 120);
                ("cost_impact", VNum 75); ("severity", VStr "low");
                ("detected_at", VStr "2024-03-04T08:00:00") ]%string.
Definition pipeline_data : dict := record_of (anomaly_data_of pipeline_record).

(* ===================================================================== *)
(** * Properties *)
(* ===================================================================== *)

Section Properties.

Variable float_str : Q -> string.

(* --------------------------------------------------------------------- *)
(** ** The suppression gate *)
(* --------------------------------------------------------------------- *)

Lemma same_tracking_refl m : same_tracking m m.
Proof. by constructor. Qed.

Lemma same_tracking_trans m1 m2 m3 :
  same_tracking m1 m2 -> same_tracking m2 m3 -> same_tracking m1 m3.
Proof.
  intros [] []. constructor; try congruence; eauto.
Qed.

Lemma touch_hour_same t m : same_tracking m (touch_hour t m).
Proof.
  unfold touch_hour.
  destruct (alert_count_hourly m !! strftime_hour t) eqn:E;
    [apply same_tracking_refl|].
  constructor; simpl; try done.
  - intros k. unfold hourly_count; simpl.
    destruct (decide (strftime_hour t = k)) as [<-|Hne].
    + by rewrite lookup_insert_eq, E.
    + by rewrite lookup_insert_ne.
  - intros k v Hk. rewrite lookup_insert_ne; [done|congruence].
Qed.

Lemma gate_same m m' key t :
  same_tracking m m' -> gate m' key t = gate m key t.
Proof.
  intros []. unfold gate, cooldown_active, rate_limited.
  by rewrite st_config0, st_last0, st_count0.
Qed.

(** [_should_send_alert] on an alert that has a type and a service: it
    reads the clock once and answers with the decision of the gate. *)
Lemma should_send_spec alert key w :
  alert_key float_str alert = Ok key ->
  _should_send_alert float_str alert w
  = (Ok (gate (manager w) key (next_time w)),
     tick_with (if cooldown_active (manager w) key (next_time w)
                then manager w else touch_hour (next_time w) (manager w)) w).
Proof.
  intros Hk. unfold _should_send_alert, bind, lift. rewrite Hk.
  unfold now, get_self, gate, cooldown_active, rate_limited, touch_hour,
    hourly_count, next_time, tick_with. simpl.
  destruct (last_alert_time (manager w) !! VStr key) as [last|] eqn:El; simpl.
  - destruct (Qlt_bool _ _) eqn:Ec; simpl; [by destruct w, manager0|].
    destruct (alert_count_hourly (manager w) !! _) as [c|] eqn:Eh; simpl.
    + unfold ret, bind; simpl. rewrite Eh. simpl.
      destruct (_ <=? c); by destruct w, manager0.
    + unfold modify_self, bind; simpl. rewrite lookup_insert_eq. simpl.
      by destruct (_ <=? 0).
  - destruct (alert_count_hourly (manager w) !! _) as [c|] eqn:Eh; simpl.
    + unfold ret, bind; simpl. rewrite Eh. simpl.
      destruct (_ <=? c); by destruct w, manager0.
    + unfold modify_self, bind; simpl. rewrite lookup_insert_eq. simpl.
      by destruct (_ <=? 0).
Qed.

Lemma should_send_raise alert e w :
  alert_key float_str alert = Raise e ->
  _should_send_alert float_str alert w = (Raise e, w).
Proof.
  intros Hk. unfold _should_send_alert, bind, lift. by rewrite Hk.
Qed.

Lemma quiet_step_refl w : quiet_step w w.
Proof. constructor; auto using same_tracking_refl. Qed.

Lemma quiet_step_trans w1 w2 w3 :
  quiet_step w1 w2 -> quiet_step w2 w3 -> quiet_step w1 w3.
Proof.
  intros [] []. constructor; try congruence.
  eauto using same_tracking_trans.
Qed.

Lemma should_send_quiet alert w r w' :
  _should_send_alert float_str alert w = (r, w') -> quiet_step w w'.
Proof.
  destruct (alert_key float_str alert) as [key|e] eqn:Hk.
  - rewrite (should_send_spec _ _ _ Hk). intros [= _ <-].
    constructor; simpl; try done.
    destruct (cooldown_active _ _ _);
      auto using same_tracking_refl, touch_hour_same.
  - rewrite (should_send_raise _ _ _ Hk). intros [= _ <-].
    apply quiet_step_refl.
Qed.

(* --------------------------------------------------------------------- *)
(** ** The phases of [send_alert] *)
(* --------------------------------------------------------------------- *)

Lemma send_alert_unfold alert w :
  send_alert float_str alert w
  = match _should_send_alert float_str alert w with
    | (Ok true, w1) =>
        match dispatch alert (snd (sleep 1 w1)) with
        | (Ok true, w2) => record_delivery alert w2
        | (Ok false, w2) => (Ok false, w2)
        | (Raise e, w2) => (Raise e, w2)
        end
    | (Ok false, w1) => (Ok false, w1)
    | (Raise e, w1) => (Raise e, w1)
    end.
Proof.
  unfold send_alert, bind at 1.
  destruct (_should_send_alert float_str alert w) as [[[|]|e] w1]; simpl; try done.
  unfold dispatch, attempt, bind, get_self, sleep, emit; simpl.
  set (w1' := mk_world _ _ _ _ _ _).
  destruct (truthy (slack_webhook_url _)).
  - destruct (try_except _ _ w1') as [[s|e] w2]; simpl; [|done].
    destruct (truthy (email_smtp_server _)).
    + destruct (try_except _ _ w2) as [[[|]|e] w3]; simpl; done.
    + destruct s; done.
  - simpl. destruct (truthy (email_smtp_server _)).
    + destruct (try_except _ _ w1') as [[[|]|e] w3]; simpl; done.
    + done.
Qed.

Lemma channel_step_refl w : channel_step w w.
Proof. by constructor. Qed.

Lemma channel_step_trans w1 w2 w3 :
  channel_step w1 w2 -> channel_step w2 w3 -> channel_step w1 w3.
Proof. intros [] []. constructor; congruence. Qed.

Lemma send_slack_channel_step alert w r w' :
  _send_slack_alert alert w = (r, w') -> channel_step w w'.
Proof.
  unfold _send_slack_alert, bind, get_self, lift, try_except, requests_post, ret, raise.
  destruct (negb _); [intros [= _ <-]; apply channel_step_refl|].
  destruct (getitem alert "type") as [ty|e]; [|intros [= _ <-]; apply channel_step_refl].
  destruct (if py_eq ty _ then _ else _) as [text|e];
    [|intros [= _ <-]; apply channel_step_refl].
  simpl. destruct (webhook_reply _ _); intros [= _ <-]; by constructor.
Qed.

Lemma send_email_channel_step alert w r w' :
  _send_email_alert alert w = (r, w') -> channel_step w w'.
Proof.
  unfold _send_email_alert, bind, get_self, lift, smtp_session, ret.
  destruct (negb _); [intros [= _ <-]; apply channel_step_refl|].
  destruct (_ ≫= _) as [subject|e]; [|intros [= _ <-]; apply channel_step_refl].
  destruct (_format_email_message alert) as [body|e];
    [|intros [= _ <-]; apply channel_step_refl].
  destruct (smtp_reply _ _); intros [= _ <-]; by constructor.
Qed.

Lemma attempt_spec c success w :
  attempt c success w = (Ok (is_ok (fst (c w)) && success), snd (c w)).
Proof.
  unfold attempt, try_except, bind, ret.
  by destruct (c w) as [[[]|e] w'].
Qed.

Lemma dispatch_total alert w :
  exists b w', dispatch alert w = (Ok b, w') /\ channel_step w w'.
Proof.
  unfold dispatch, bind, get_self.
  destruct (truthy (slack_webhook_url _)) eqn:Es.
  - rewrite attempt_spec.
    destruct (_send_slack_alert alert w) as [r1 w1] eqn:E1.
    apply send_slack_channel_step in E1. simpl.
    destruct (truthy (email_smtp_server _)) eqn:Ee.
    + rewrite attempt_spec.
      destruct (_send_email_alert alert w1) as [r2 w2] eqn:E2.
      apply send_email_channel_step in E2.
      eauto using channel_step_trans.
    + eauto.
  - unfold ret at 1.
    destruct (truthy (email_smtp_server _)) eqn:Ee.
    + rewrite attempt_spec.
      destruct (_send_email_alert alert w) as [r2 w2] eqn:E2.
      apply send_email_channel_step in E2. eauto.
    + unfold ret. eauto using channel_step_refl.
Qed.

Lemma dispatch_no_channel alert w :
  slack_webhook_url (config (manager w)) = ""%string ->
  email_smtp_server (config (manager w)) = ""%string ->
  dispatch alert w = (Ok true, w).
Proof.
  intros Hs He. unfold dispatch, bind, get_self. by rewrite Hs, He.
Qed.

Lemma record_delivery_spec alert w :
  record_delivery alert w = (Ok true, recorded alert w).
Proof. reflexivity. Qed.

(** C10. A candidate that the suppression gate rejects: [send_alert]
    returns [False] in the world the gate left, no channel is attempted
    (nothing is posted, mailed or traced), and the history, the last-sent
    map and every existing hourly counter are unchanged. *)
Theorem suppressed_send_is_atomic alert w w1 :
  _should_send_alert float_str alert w = (Ok false, w1) ->
  send_alert float_str alert w = (Ok false, w1)
  /\ trace w1 = trace w /\ posts w1 = posts w /\ mails w1 = mails w
  /\ alert_history (manager w1) = alert_history (manager w)
  /\ last_alert_time (manager w1) = last_alert_time (manager w)
  /\ (forall k v, alert_count_hourly (manager w) !! k = Some v ->
                  alert_count_hourly (manager w1) !! k = Some v).
Proof.
  intros H. rewrite send_alert_unfold, H.
  apply should_send_quiet in H. destruct H as [[] ? ? ? ?].
  repeat split; auto.
Qed.

(** C7. With no channel configured (empty webhook URL and empty SMTP
    server), [send_alert] on a candidate that the gate accepts returns
    [True] and appends the alert to the history, and no channel is
    attempted: nothing is posted or mailed, the only outside effects are
    the pacing sleep and the write of the history file. *)
Theorem zero_channel_delivery alert w w1 :
  slack_webhook_url (config (manager w)) = ""%string ->
  email_smtp_server (config (manager w)) = ""%string ->
  _should_send_alert float_str alert w = (Ok true, w1) ->
  exists w2,
    send_alert float_str alert w = (Ok true, w2)
    /\ alert_history (manager w2) = alert_history (manager w) ++ [alert]
    /\ posts w2 = posts w /\ mails w2 = mails w
    /\ trace w2 = trace w ++ [EvSleep 1;
                              EvSaveHistory (alert_history (manager w) ++ [alert])].
Proof.
  intros Hs He H. rewrite send_alert_unfold, H.
  apply should_send_quiet in H. destruct H as [[Hc ? Hh ? ? ?] ? Hp Hm Ht].
  rewrite dispatch_no_channel by (simpl; congruence).
  rewrite record_delivery_spec. eexists. split; [reflexivity|].
  simpl. rewrite Hh, Hp, Hm, Ht, <- app_assoc. done.
Qed.

(** A send that is not reported as delivered leaves the tracking alone. *)
Lemma undelivered_send_same_tracking alert w r w2 :
  send_alert float_str alert w = (r, w2) -> r <> Ok true ->
  same_tracking (manager w) (manager w2).
Proof.
  rewrite send_alert_unfold.
  destruct (_should_send_alert float_str alert w) as [[[|]|e] w1] eqn:Hg;
    apply should_send_quiet in Hg; destruct Hg as [Hst _ _ _ _].
  - destruct (dispatch_total alert (snd (sleep 1 w1))) as (b & w' & -> & [Hm _ _]).
    destruct b.
    + rewrite record_delivery_spec. by intros [= <- _] ?.
    + intros [= _ <-] _. by rewrite Hm.
  - by intros [= _ <-] _.
  - by intros [= _ <-] _.
Qed.

(** C5 (amended). The suppression check never changes the last-sent map
    nor the value of any hourly counter; its only write creates the
    counter of the current hour, with value 0, when that counter does not
    exist yet.  A send that is not reported as delivered changes neither. *)
Theorem should_send_frame alert w :
  let w' := snd (_should_send_alert float_str alert w) in
  last_alert_time (manager w') = last_alert_time (manager w)
  /\ (forall k, hourly_count (manager w') k = hourly_count (manager w) k)
  /\ (forall k v, alert_count_hourly (manager w) !! k = Some v ->
                  alert_count_hourly (manager w') !! k = Some v)
  /\ (forall k, alert_count_hourly (manager w) !! k = None ->
                alert_count_hourly (manager w') !! k = None
                \/ (k = strftime_hour (next_time w)
                    /\ alert_count_hourly (manager w') !! k = Some 0))
  /\ (forall r w2, send_alert float_str alert w = (r, w2) -> r <> Ok true ->
                   last_alert_time (manager w2) = last_alert_time (manager w)
                   /\ forall k, hourly_count (manager w2) k = hourly_count (manager w) k).
Proof.
  simpl. destruct (_should_send_alert float_str alert w) as [r w'] eqn:Hg.
  pose proof (should_send_quiet _ _ _ _ Hg) as [[_ _ _ Hl Hc Hk] _ _ _ _].
  simpl. split; [done|]. split; [done|]. split; [done|]. split.
  - intros k Hnone.
    destruct (alert_key float_str alert) as [key|e] eqn:Hkey.
    + rewrite (should_send_spec _ _ _ Hkey) in Hg. injection Hg as _ <-.
      simpl. destruct (cooldown_active _ _ _); [by left|].
      unfold touch_hour.
      destruct (alert_count_hourly (manager w) !! strftime_hour (next_time w)) eqn:E;
        [by left|]. simpl.
      destruct (decide (strftime_hour (next_time w) = k)) as [<-|Hne].
      * right. by rewrite lookup_insert_eq.
      * left. by rewrite lookup_insert_ne.
    + rewrite (should_send_raise _ _ _ Hkey) in Hg. injection Hg as _ <-. by left.
  - intros r2 w2 Hs Hr.
    destruct (undelivered_send_same_tracking _ _ _ _ Hs Hr). by split.
Qed.

(* --------------------------------------------------------------------- *)
(** ** Cost spikes *)
(* --------------------------------------------------------------------- *)

Lemma get_default_some (d : dict) key dflt v :
  d !! key = Some v -> get_default d key dflt = v.
Proof. unfold get_default. by intros ->. Qed.

Lemma get_default_none (d : dict) key dflt :
  d !! key = None -> get_default d key dflt = dflt.
Proof. unfold get_default. by intros ->. Qed.

Lemma threshold_matches_iff th svc ty :
  threshold_matches th svc ty = true <-> in_scope th svc ty.
Proof.
  unfold threshold_matches, in_scope.
  rewrite andb_true_iff, orb_true_iff, !String.eqb_eq.
  assert (py_eq (VStr (service th)) svc = true <-> svc = VStr (service th)) as ->.
  { destruct svc; simpl; try (split; [discriminate|congruence]).
    rewrite String.eqb_eq. split; congruence. }
  tauto.
Qed.

Lemma spike_condition_iff th current previous :
  Qle_bool (threshold_amount th) (current - previous)
  || Qle_bool (threshold_percentage th) ((current - previous) / previous * 100) = true
  <-> spike_condition th current previous.
Proof.
  unfold spike_condition. by rewrite orb_true_iff, !Qle_bool_iff.
Qed.

Lemma cost_spike_alert_key svc cv pv inc pct th t :
  alert_key float_str (cost_spike_alert svc cv pv inc pct th t)
  = Ok ("cost_spike_" +:+ py_str float_str svc).
Proof. reflexivity. Qed.

(** A candidate returned by the loop was built from a qualifying
    threshold of the list. *)
Lemma cost_spike_loop_sound ths svc cv pv inc pct w a w' :
  cost_spike_loop float_str ths svc cv pv inc pct w = (Ok (Some a), w') ->
  exists th t,
    th ∈ ths /\ threshold_matches th svc "cost_spike" = true
    /\ Qle_bool (threshold_amount th) inc
       || Qle_bool (threshold_percentage th) pct = true
    /\ a = cost_spike_alert svc cv pv inc pct th t.
Proof.
  revert w. induction ths as [|th rest IH]; intros w; simpl.
  - discriminate.
  - destruct (threshold_matches th svc "cost_spike") eqn:Hm; simpl.
    + destruct (Qle_bool _ inc || Qle_bool _ pct) eqn:Hq.
      * unfold bind at 1, now. unfold bind at 1.
        rewrite (should_send_spec _ _ _ (cost_spike_alert_key _ _ _ _ _ _ _)).
        destruct (gate _ _ _).
        -- intros [= <- _]. exists th. eexists. repeat split; auto. left.
        -- intros H. apply IH in H as (th' & t & ? & ?).
           exists th', t. split; [by right|done].
      * intros H. apply IH in H as (th' & t & ? & ?).
        exists th', t. split; [by right|done].
    + intros H. apply IH in H as (th' & t & ? & ?).
      exists th', t. split; [by right|done].
Qed.

(** When the gate accepts the key at its first consultation (the reading
    of the clock that follows the one of the timestamp), the first
    qualifying threshold yields a candidate. *)
Lemma cost_spike_loop_complete ths svc cv pv inc pct w :
  gate (manager w) ("cost_spike_" +:+ py_str float_str svc)
       (clock (env w) (S (clock_reads w))) = true ->
  (exists th, th ∈ ths /\ threshold_matches th svc "cost_spike" = true
              /\ Qle_bool (threshold_amount th) inc
                 || Qle_bool (threshold_percentage th) pct = true) ->
  exists a w', cost_spike_loop float_str ths svc cv pv inc pct w = (Ok (Some a), w').
Proof.
  intros Hgate. induction ths as [|th rest IH]; intros (th' & Hin & Hm & Hq).
  - by apply elem_of_nil in Hin.
  - simpl.
    destruct (threshold_matches th svc "cost_spike"
              && (Qle_bool (threshold_amount th) inc
                  || Qle_bool (threshold_percentage th) pct)) eqn:Hhead.
    + unfold bind at 1, now. unfold bind at 1.
      rewrite (should_send_spec _ _ _ (cost_spike_alert_key _ _ _ _ _ _ _)).
      unfold next_time; simpl. rewrite Hgate. eauto.
    + apply IH. apply elem_of_cons in Hin as [->|Hin].
      * by rewrite Hm, Hq in Hhead.
      * eauto.
Qed.


(* --------------------------------------------------------------------- *)
(** ** Severity *)
(* --------------------------------------------------------------------- *)

Lemma Qlt_bool_iff a b : Qlt_bool a b = true <-> (a < b)%Q.
Proof.
  unfold Qlt_bool. rewrite negb_true_iff, <- not_true_iff_false, Qle_bool_iff.
  split; [apply Qnot_le_lt | apply Qlt_not_le].
Qed.

Lemma Qlt_bool_false_iff a b : Qlt_bool a b = false <-> (b <= a)%Q.
Proof.
  unfold Qlt_bool. by rewrite negb_false_iff, Qle_bool_iff.
Qed.

Lemma budget_exceeded_alert_key svc cv bv ex t :
  alert_key float_str (budget_exceeded_alert svc cv bv ex t)
  = Ok ("budget_exceeded_" +:+ py_str float_str svc).
Proof. reflexivity. Qed.

Lemma anomaly_alert_key svc sc ci t high :
  alert_key float_str (anomaly_alert svc sc ci t high)
  = Ok ("anomaly_" +:+ py_str float_str svc).
Proof. reflexivity. Qed.

Lemma budget_exceeded_loop_sound ths svc cv bv w a w' :
  budget_exceeded_loop float_str ths svc cv bv w = (Ok (Some a), w') ->
  exists th ex t,
    th ∈ ths /\ threshold_matches th svc "budget_exceeded" = true
    /\ py_sub cv bv = Ok ex
    /\ a = budget_exceeded_alert svc cv bv ex t.
Proof.
  revert w. induction ths as [|th rest IH]; intros w; simpl; [discriminate|].
  destruct (threshold_matches th svc "budget_exceeded") eqn:Hm.
  - unfold bind at 1, lift. destruct (py_sub cv bv) as [ex|e] eqn:Hs; [|discriminate].
    unfold bind at 1, now. unfold bind at 1.
    rewrite (should_send_spec _ _ _ (budget_exceeded_alert_key _ _ _ _ _)).
    destruct (gate _ _ _).
    + intros [= <- _]. exists th, ex. eexists. repeat split; auto. left.
    + intros H. apply IH in H as (th' & ex' & t & ? & ?).
      exists th', ex', t. split; [by right|done].
  - intros H. apply IH in H as (th' & ex' & t & ? & ?).
    exists th', ex', t. split; [by right|done].
Qed.

Lemma anomaly_loop_sound ths svc sc ci w a w' :
  anomaly_loop float_str ths svc sc ci w = (Ok (Some a), w') ->
  exists th t high,
    th ∈ ths /\ threshold_matches th svc "anomaly" = true
    /\ py_ge_num ci (threshold_amount th) = Ok true
    /\ py_gt_num sc (8 # 10) = Ok high
    /\ a = anomaly_alert svc sc ci t high.
Proof.
  revert w. induction ths as [|th rest IH]; intros w; simpl; [discriminate|].
  destruct (threshold_matches th svc "anomaly") eqn:Hm.
  - unfold bind at 1, lift.
    destruct (py_ge_num ci (threshold_amount th)) as [[|]|e] eqn:Hge; [| |discriminate].
    + unfold bind at 1, now. unfold bind at 1.
      destruct (py_gt_num sc (8 # 10)) as [high|e] eqn:Hgt; [|discriminate].
      unfold bind at 1.
      rewrite (should_send_spec _ _ _ (anomaly_alert_key _ _ _ _ _)).
      destruct (gate _ _ _).
      * intros [= <- _]. exists th. do 2 eexists. repeat split; eauto. left.
      * intros H. apply IH in H as (th' & t & hi & ? & ?).
        exists th', t, hi. split; [by right|done].
    + intros H. apply IH in H as (th' & t & hi & ? & ?).
      exists th', t, hi. split; [by right|done].
  - intros H. apply IH in H as (th' & t & hi & ? & ?).
    exists th', t, hi. split; [by right|done].
Qed.


(* --------------------------------------------------------------------- *)
(** ** Absent and malformed fields *)
(* --------------------------------------------------------------------- *)

Lemma lookup_with_default_ne (d : dict) key v key' :
  key <> key' -> with_default d key v !! key' = d !! key'.
Proof.
  intros Hne. unfold with_default.
  destruct (d !! key); [done|]. by rewrite lookup_insert_ne.
Qed.

Lemma get_default_with_default (d : dict) key v :
  get_default (with_default d key v) key v = get_default d key v.
Proof.
  unfold get_default, with_default.
  destruct (d !! key) eqn:E; [by rewrite E|]. by rewrite lookup_insert_eq.
Qed.

Lemma get_default_with_default_ne (d : dict) key v key' v' :
  key <> key' ->
  get_default (with_default d key v) key' v' = get_default d key' v'.
Proof.
  intros Hne. unfold get_default. by rewrite lookup_with_default_ne.
Qed.

Lemma numeric_get_default (d : dict) key :
  numeric_or_missing d key -> exists q, get_default d key (VNum 0) = VNum q.
Proof.
  intros [Hn|[q Hq]].
  - exists 0%Q. by apply get_default_none.
  - exists q. by apply get_default_some.
Qed.

Lemma cost_spike_loop_ok ths svc cv pv inc pct w :
  exists r w', cost_spike_loop float_str ths svc cv pv inc pct w = (Ok r, w').
Proof.
  revert w. induction ths as [|th rest IH]; intros w; simpl.
  - unfold ret. eauto.
  - destruct (_ && _); [|apply IH].
    unfold bind at 1, now. unfold bind at 1.
    rewrite (should_send_spec _ _ _ (cost_spike_alert_key _ _ _ _ _ _ _)).
    destruct (gate _ _ _); [unfold ret; eauto|apply IH].
Qed.

Lemma budget_exceeded_loop_ok ths svc c b w :
  exists r w',
    budget_exceeded_loop float_str ths svc (VNum c) (VNum b) w = (Ok r, w').
Proof.
  revert w. induction ths as [|th rest IH]; intros w; simpl.
  - unfold ret. eauto.
  - destruct (threshold_matches _ _ _); [|apply IH].
    unfold bind at 1, lift. unfold bind at 1, now. unfold bind at 1.
    rewrite (should_send_spec _ _ _ (budget_exceeded_alert_key _ _ _ _ _)).
    destruct (gate _ _ _); [unfold ret; eauto|apply IH].
Qed.

Lemma anomaly_loop_ok ths svc sc ci w :
  exists r w',
    anomaly_loop float_str ths svc (VNum sc) (VNum ci) w = (Ok r, w').
Proof.
  revert w. induction ths as [|th rest IH]; intros w; simpl.
  - unfold ret. eauto.
  - destruct (threshold_matches _ _ _); [|apply IH].
    unfold bind at 1, lift. destruct (Qle_bool _ ci); [|apply IH].
    unfold bind at 1, now. unfold bind at 1. unfold bind at 1.
    rewrite (should_send_spec _ _ _ (anomaly_alert_key _ _ _ _ _)).
    destruct (gate _ _ _); [unfold ret; eauto|apply IH].
Qed.

Lemma check_cost_spike_fill d w :
  check_cost_spike float_str d w
  = check_cost_spike float_str
      (with_default (with_default d "current_cost" (VNum 0))
                    "previous_cost" (VNum 0)) w.
Proof.
  unfold check_cost_spike.
  rewrite !get_default_with_default.
  rewrite !(get_default_with_default_ne _ "previous_cost") by done.
  rewrite !get_default_with_default.
  by rewrite !(get_default_with_default_ne _ "current_cost") by done.
Qed.

Lemma check_anomaly_fill d w :
  check_anomaly float_str d w
  = check_anomaly float_str
      (with_default (with_default d "anomaly_score" (VNum 0))
                    "cost_impact" (VNum 0)) w.
Proof.
  unfold check_anomaly.
  rewrite !get_default_with_default.
  rewrite !(get_default_with_default_ne _ "cost_impact") by done.
  rewrite !get_default_with_default.
  by rewrite !(get_default_with_default_ne _ "anomaly_score") by done.
Qed.

Lemma check_budget_exceeded_fill d w :
  check_budget_exceeded float_str d w
  = check_budget_exceeded float_str (with_default d "current_cost" (VNum 0)) w.
Proof.
  unfold check_budget_exceeded.
  rewrite get_default_with_default.
  rewrite !(get_default_with_default_ne _ "current_cost") by done.
  by rewrite (lookup_with_default_ne _ "current_cost") by done.
Qed.


(* --------------------------------------------------------------------- *)
(** ** Timestamps and the history *)
(* --------------------------------------------------------------------- *)

Lemma digit_val_char n : digit_val (digit_char n) = Some (n mod 10).
Proof.
  unfold digit_val, digit_char.
  pose proof (Z.mod_pos_bound n 10 eq_refl) as Hb.
  rewrite nat_ascii_embedding by lia.
  rewrite Nat2Z.inj_add, Z2Nat.id by lia.
  change (Z.of_nat 48) with 48.
  assert ((48 <=? 48 + n mod 10) && (48 + n mod 10 <=? 57) = true) as ->.
  { apply andb_true_iff. split; apply Z.leb_le; lia. }
  f_equal. lia.
Qed.

Lemma digits2 n : 0 <= n < 100 -> (0 * 10 + (n / 10) mod 10) * 10 + n mod 10 = n.
Proof. intros. Z.div_mod_to_equations; lia. Qed.

Lemma digits4 n : 0 <= n < 10000 ->
  (((0 * 10 + (n / 10 / 10 / 10) mod 10) * 10 + (n / 10 / 10) mod 10) * 10
   + (n / 10) mod 10) * 10 + n mod 10 = n.
Proof. intros. Z.div_mod_to_equations; lia. Qed.

Lemma digits6 n : 0 <= n < 1000000 ->
  (((((0 * 10 + (n / 10 / 10 / 10 / 10 / 10) mod 10) * 10
      + (n / 10 / 10 / 10 / 10) mod 10) * 10
     + (n / 10 / 10 / 10) mod 10) * 10 + (n / 10 / 10) mod 10) * 10
   + (n / 10) mod 10) * 10 + n mod 10 = n.
Proof. intros. Z.div_mod_to_equations; lia. Qed.


Lemma valid_datetime_bounds t :
  valid_datetime t = true ->
  0 <= year t < 10000 /\ 0 <= month t < 100 /\ 0 <= day t < 100
  /\ 0 <= hour t < 100 /\ 0 <= minute t < 100 /\ 0 <= second t < 100
  /\ 0 <= microsecond t < 1000000.
Proof.
  unfold valid_datetime. rewrite !andb_true_iff, !Z.leb_le, !Z.ltb_lt.
  assert (days_in_month (year t) (month t) <= 31).
  { unfold days_in_month.
    repeat match goal with |- context [if ?b then _ else _] => destruct b end; lia. }
  lia.
Qed.

(** [fromisoformat] inverts [isoformat] on every valid datetime. *)
Lemma fromisoformat_isoformat t :
  valid_datetime t = true -> fromisoformat (isoformat t) = Some t.
Proof.
  intros Hv. pose proof (valid_datetime_bounds t Hv) as (Hy & Hmo & Hd & Hh & Hmi & Hs & Hus).
  destruct t as [y mo d h mi s us]. cbn [year month day hour minute second microsecond] in *.
  unfold isoformat. cbn [year month day hour minute second microsecond].
  destruct (us =? 0) eqn:Eus.
  - apply Z.eqb_eq in Eus. subst us.
    cbv beta iota zeta delta
      [fromisoformat parse_field char_at String.length String.get String.substring
       Nat.eqb orb andb Ascii.eqb Bool.eqb parse_digits zpad zpad_acc String.append].
    rewrite !digit_val_char.
    cbv beta iota.
    rewrite (digits4 y Hy), (digits2 mo Hmo), (digits2 d Hd), (digits2 h Hh),
      (digits2 mi Hmi), (digits2 s Hs).
    cbn [mbind option_bind]. by rewrite Hv.
  - cbv beta iota zeta delta
      [fromisoformat parse_field char_at String.length String.get String.substring
       Nat.eqb orb andb Ascii.eqb Bool.eqb parse_digits zpad zpad_acc String.append].
    rewrite !digit_val_char.
    cbv beta iota.
    rewrite (digits4 y Hy), (digits2 mo Hmo), (digits2 d Hd), (digits2 h Hh),
      (digits2 mi Hmi), (digits2 s Hs), (digits6 us Hus).
    cbn [mbind option_bind]. by rewrite Hv.
Qed.

(** A send reported as delivered has appended the alert to the history. *)
Lemma delivered_send_history alert w w2 :
  send_alert float_str alert w = (Ok true, w2) ->
  alert_history (manager w2) = alert_history (manager w) ++ [alert].
Proof.
  rewrite send_alert_unfold.
  destruct (_should_send_alert float_str alert w) as [[[|]|e] w1] eqn:Hg;
    [|discriminate..].
  apply should_send_quiet in Hg. destruct Hg as [[_ _ Hh _ _ _] _ _ _ _].
  destruct (dispatch_total alert (snd (sleep 1 w1))) as (b & w' & -> & [Hm _ _]).
  destruct b; [|discriminate].
  rewrite record_delivery_spec. intros [= <-]. simpl. by rewrite Hm, <- Hh.
Qed.

Lemma recent_alerts_last t td history alert stamp :
  timestamps_parse history ->
  alert !! "timestamp"%string = Some (VStr (isoformat stamp)) ->
  valid_datetime stamp = true ->
  dt_after stamp t td = true ->
  exists older, recent_alerts t td (history ++ [alert]) = Ok (older ++ [alert]).
Proof.
  intros Hparse Hts Hv Hafter.
  induction Hparse as [|a rest (s & t0 & Hs & Ht0) _ IH]; simpl.
  - unfold getitem. rewrite Hts. simpl.
    rewrite (fromisoformat_isoformat _ Hv). simpl. rewrite Hafter.
    by exists [].
  - destruct IH as (older & ->).
    unfold getitem. rewrite Hs. simpl. rewrite Ht0. simpl.
    destruct (dt_after t0 t td); [by exists (a :: older)|by exists older].
Qed.


(* --------------------------------------------------------------------- *)
(** ** The keys of the suppression state *)
(* --------------------------------------------------------------------- *)

(** What a send reported as delivered went through: the gate accepted,
    the channels ran, the bookkeeping was done. *)
Lemma delivered_send_spec alert w w2 :
  send_alert float_str alert w = (Ok true, w2) ->
  exists w1 wd,
    _should_send_alert float_str alert w = (Ok true, w1)
    /\ manager wd = manager w1
    /\ w2 = recorded alert wd.
Proof.
  rewrite send_alert_unfold.
  destruct (_should_send_alert float_str alert w) as [[[|]|e] w1] eqn:Hg;
    [|discriminate..].
  destruct (dispatch_total alert (snd (sleep 1 w1))) as (b & wd & -> & [Hm _ _]).
  destruct b; [|discriminate].
  rewrite record_delivery_spec. intros [= <-]. eauto.
Qed.

Lemma string_length_app (a b : string) :
  String.length (a +:+ b) = (String.length a + String.length b)%nat.
Proof. induction a as [|c a IH]; simpl; [done|]. by rewrite IH. Qed.

Lemma length_zpad_acc width n acc :
  String.length (zpad_acc width n acc) = (width + String.length acc)%nat.
Proof.
  revert n acc. induction width as [|width IH]; intros n acc; simpl; [done|].
  rewrite IH. simpl. lia.
Qed.

Lemma length_strftime_hour t : String.length (strftime_hour t) = 13%nat.
Proof.
  unfold strftime_hour, zpad. rewrite !string_length_app, !length_zpad_acc.
  reflexivity.
Qed.

Lemma length_isoformat_hour t :
  String.length (isoformat (replace_to_hour t)) = 19%nat.
Proof.
  unfold isoformat, zpad. cbn [microsecond replace_to_hour Z.eqb].
  rewrite !string_length_app, !length_zpad_acc. reflexivity.
Qed.

(** The hour key that the gate reads is never the hour key that a
    delivery writes. *)
Lemma hour_keys_differ t t' : strftime_hour t <> isoformat (replace_to_hour t').
Proof.
  intros E. apply (f_equal String.length) in E.
  rewrite length_strftime_hour, length_isoformat_hour in E. discriminate.
Qed.

(** The key that the gate looks up in the last-sent map is never the key
    under which the delivery of the same alert is recorded. *)
Lemma alert_key_not_service_key alert key :
  alert_key float_str alert = Ok key ->
  VStr key <> dict_key (get_default alert "service" (VStr "unknown")).
Proof.
  unfold alert_key, getitem, get_default.
  destruct (alert !! "type"%string) as [ty|]; [|discriminate].
  destruct (alert !! "service"%string) as [sv|]; [|discriminate].
  simpl. intros [= <-]. destruct sv as [|s|q]; simpl; try discriminate.
  intros [= E]. apply (f_equal String.length) in E.
  rewrite !string_length_app in E. simpl in E. lia.
Qed.

(** A delivery leaves the answer of the gate for the key of the delivered
    alert, and the rate limit for every key, exactly as they were:
    neither the cooldown entry nor the counter that the gate reads is
    ever written. *)
Lemma delivery_invisible_to_gate alert w w2 key t :
  send_alert float_str alert w = (Ok true, w2) ->
  alert_key float_str alert = Ok key ->
  cooldown_active (manager w2) key t = cooldown_active (manager w) key t
  /\ rate_limited (manager w2) t = rate_limited (manager w) t.
Proof.
  intros Hsend Hkey.
  apply delivered_send_spec in Hsend as (w1 & wd & Hg & Hm & ->).
  apply should_send_quiet in Hg. destruct Hg as [[Hc _ _ Hl Hcnt _] _ _ _ _].
  unfold cooldown_active, rate_limited, hourly_count in *. simpl.
  rewrite lookup_insert_ne by (by apply not_eq_sym, alert_key_not_service_key).
  rewrite lookup_insert_ne by (apply not_eq_sym, hour_keys_differ).
  rewrite Hm, Hc, Hl, Hcnt. done.
Qed.

(** Once the message is formatted and posted, whatever the webhook
    answers, [_send_slack_alert] returns normally. *)
Lemma slack_failure_is_swallowed alert w r w' :
  _send_slack_alert alert w = (r, w') ->
  posts w' <> posts w -> r = Ok tt.
Proof.
  unfold _send_slack_alert, bind, get_self, lift, try_except, requests_post, ret, raise.
  destruct (negb _); [by intros [= _ <-]|].
  destruct (getitem alert "type") as [ty|e]; [|by intros [= _ <-]].
  destruct (if py_eq ty _ then _ else _) as [text|e]; [|by intros [= _ <-]].
  simpl. by destruct (webhook_reply _ _); intros [= <- _].
Qed.

(* --------------------------------------------------------------------- *)
(** ** Results of computations *)
(* --------------------------------------------------------------------- *)

(** A computation returns its result in its final world. *)
Lemma run_result {A} (c : M A) (w : World) (r : outcome A) :
  result c w = r -> c w = (r, run c w).
Proof. unfold result, run. destruct (c w). simpl. congruence. Qed.

Lemma candidate_result (r : outcome (option dict)) :
  is_candidate r = true -> r = Ok (Some (candidate_of r)).
Proof. by destruct r as [[a|]|e]. Qed.

Lemma candidate_run (c : M (option dict)) (w : World) :
  is_candidate (result c w) = true ->
  c w = (Ok (Some (candidate_of (result c w))), run c w).
Proof.
  intros H. apply run_result. by apply candidate_result.
Qed.

(* --------------------------------------------------------------------- *)
(** ** More on the evaluators *)
(* --------------------------------------------------------------------- *)

Lemma should_send_clock alert w r w' :
  _should_send_alert float_str alert w = (r, w') ->
  env w' = env w /\ (clock_reads w <= clock_reads w')%nat.
Proof.
  destruct (alert_key float_str alert) as [key|e] eqn:Hk.
  - rewrite (should_send_spec _ _ _ Hk). intros [= _ <-]. simpl. split; [done|lia].
  - rewrite (should_send_raise _ _ _ Hk). intros [= _ <-]. split; [done|lia].
Qed.

Lemma now_quiet w : quiet_step w (snd (now w)).
Proof. constructor; simpl; auto using same_tracking_refl. Qed.

Lemma cost_spike_loop_quiet ths svc cv pv inc pct w r w' :
  cost_spike_loop float_str ths svc cv pv inc pct w = (r, w') -> quiet_step w w'.
Proof.
  revert w. induction ths as [|th rest IH]; intros w; simpl.
  - intros [= _ <-]. apply quiet_step_refl.
  - destruct (_ && _); [|apply IH].
    unfold bind at 1. change (now w) with (Ok (next_time w), snd (now w)).
    unfold bind at 1.
    destruct (_should_send_alert _ _ _) as [[[|]|e] w2] eqn:Hg;
      apply should_send_quiet in Hg;
      pose proof (quiet_step_trans _ _ _ (now_quiet w) Hg) as Hq.
    + by intros [= _ <-].
    + intros H. apply IH in H. eauto using quiet_step_trans.
    + by intros [= _ <-].
Qed.

Lemma budget_exceeded_loop_quiet ths svc cv bv w r w' :
  budget_exceeded_loop float_str ths svc cv bv w = (r, w') -> quiet_step w w'.
Proof.
  revert w. induction ths as [|th rest IH]; intros w; simpl.
  - intros [= _ <-]. apply quiet_step_refl.
  - destruct (threshold_matches _ _ _); [|apply IH].
    unfold bind at 1, lift. destruct (py_sub cv bv) as [ex|e];
      [|intros [= _ <-]; apply quiet_step_refl].
    unfold bind at 1. change (now w) with (Ok (next_time w), snd (now w)).
    unfold bind at 1.
    destruct (_should_send_alert _ _ _) as [[[|]|e] w2] eqn:Hg;
      apply should_send_quiet in Hg;
      pose proof (quiet_step_trans _ _ _ (now_quiet w) Hg) as Hq.
    + by intros [= _ <-].
    + intros H. apply IH in H. eauto using quiet_step_trans.
    + by intros [= _ <-].
Qed.

Lemma anomaly_loop_quiet ths svc sc ci w r w' :
  anomaly_loop float_str ths svc sc ci w = (r, w') -> quiet_step w w'.
Proof.
  revert w. induction ths as [|th rest IH]; intros w; simpl.
  - intros [= _ <-]. apply quiet_step_refl.
  - destruct (threshold_matches _ _ _); [|apply IH].
    unfold bind at 1, lift. destruct (py_ge_num ci _) as [[|]|e];
      [| apply IH | intros [= _ <-]; apply quiet_step_refl].
    unfold bind at 1. change (now w) with (Ok (next_time w), snd (now w)).
    unfold bind at 1. destruct (py_gt_num sc _) as [high|e];
      [|intros [= _ <-]; apply now_quiet].
    unfold bind at 1.
    destruct (_should_send_alert _ _ _) as [[[|]|e] w2] eqn:Hg;
      apply should_send_quiet in Hg;
      pose proof (quiet_step_trans _ _ _ (now_quiet w) Hg) as Hq.
    + by intros [= _ <-].
    + intros H. apply IH in H. eauto using quiet_step_trans.
    + by intros [= _ <-].
Qed.


(** X2. [check_cost_spike] on a record whose [previous_cost] is absent or
    equal to 0 returns no candidate at once: it reads no clock, changes
    nothing and does not raise, whatever the other fields hold (even a
    [current_cost] that is not a number). *)
Theorem check_cost_spike_zero_previous cost_data w :
  cost_data !! "previous_cost"%string = None
  \/ (exists q, cost_data !! "previous_cost"%string = Some (VNum q) /\ (q == 0)%Q) ->
  check_cost_spike float_str cost_data w = (Ok None, w).
Proof.
  intros H. unfold check_cost_spike.
  assert (py_eq (get_default cost_data "previous_cost" (VNum 0)) (VNum 0) = true) as ->;
    [|done].
  destruct H as [H|(q & H & Hq)].
  - by rewrite (get_default_none _ _ _ H).
  - rewrite (get_default_some _ _ _ _ H). simpl. by apply Qeq_bool_iff.
Qed.
Lemma budget_exceeded_loop_complete ths svc c b w :
  gate (manager w) ("budget_exceeded_" +:+ py_str float_str svc)
       (clock (env w) (S (clock_reads w))) = true ->
  (exists th, th ∈ ths /\ threshold_matches th svc "budget_exceeded" = true) ->
  exists a w',
    budget_exceeded_loop float_str ths svc (VNum c) (VNum b) w = (Ok (Some a), w').
Proof.
  intros Hgate. induction ths as [|th rest IH]; intros (th' & Hin & Hm).
  - by apply elem_of_nil in Hin.
  - simpl. destruct (threshold_matches th svc "budget_exceeded") eqn:Hhead.
    + unfold bind at 1, lift. unfold bind at 1, now. unfold bind at 1.
      rewrite (should_send_spec _ _ _ (budget_exceeded_alert_key _ _ _ _ _)).
      unfold next_time; simpl. rewrite Hgate. eauto.
    + apply IH. apply elem_of_cons in Hin as [->|Hin]; [congruence|eauto].
Qed.

Lemma anomaly_loop_complete ths svc sc ci w :
  gate (manager w) ("anomaly_" +:+ py_str float_str svc)
       (clock (env w) (S (clock_reads w))) = true ->
  (exists th, th ∈ ths /\ threshold_matches th svc "anomaly" = true
              /\ Qle_bool (threshold_amount th) ci = true) ->
  exists a w',
    anomaly_loop float_str ths svc (VNum sc) (VNum ci) w = (Ok (Some a), w').
Proof.
  intros Hgate. induction ths as [|th rest IH]; intros (th' & Hin & Hm & Hq).
  - by apply elem_of_nil in Hin.
  - simpl. destruct (threshold_matches th svc "anomaly") eqn:Hhead.
    + unfold bind at 1, lift.
      destruct (Qle_bool (threshold_amount th) ci) eqn:Hreach.
      * unfold bind at 1, now. unfold bind at 1. unfold bind at 1.
        rewrite (should_send_spec _ _ _ (anomaly_alert_key _ _ _ _ _)).
        unfold next_time; simpl. rewrite Hgate. eauto.
      * apply IH. apply elem_of_cons in Hin as [->|Hin]; [congruence|eauto].
    + apply IH. apply elem_of_cons in Hin as [->|Hin]; [congruence|eauto].
Qed.

(** X3. For a numeric current cost and budget limit, and when the
    suppression gate accepts the key of the candidate at the time it is
    consulted, [check_budget_exceeded] returns a candidate if and only if
    the current cost is strictly above the limit and some threshold of
    type budget_exceeded has the service or "all" as its scope; the
    amount and the percentage of that threshold play no part. *)
Theorem check_budget_exceeded_iff cost_data w current limit :
  cost_data !! "current_cost"%string = Some (VNum current) ->
  cost_data !! "budget_limit"%string = Some (VNum limit) ->
  gate (manager w)
    ("budget_exceeded_"
     +:+ py_str float_str (get_default cost_data "service" (VStr "unknown")))
    (clock (env w) (S (clock_reads w))) = true ->
  (exists a w', check_budget_exceeded float_str cost_data w = (Ok (Some a), w'))
  <-> (limit < current)%Q
      /\ exists th, th ∈ thresholds (manager w)
                    /\ in_scope th (get_default cost_data "service" (VStr "unknown"))
                                "budget_exceeded".
Proof.
  intros Hc Hb Hgate. unfold check_budget_exceeded.
  rewrite (get_default_some _ _ _ _ Hc), Hb.
  unfold bind at 1, lift. cbn [py_gt]. fold (Qlt_bool limit current).
  destruct (Qlt_bool limit current) eqn:Hlt.
  - apply Qlt_bool_iff in Hlt. unfold bind at 1, get_self. split.
    + intros (a & w' & H).
      apply budget_exceeded_loop_sound in H as (th & ex & t & Hin & Hm & _).
      split; [done|]. exists th. by rewrite <- threshold_matches_iff.
    + intros (_ & th & Hin & Hm). apply budget_exceeded_loop_complete; [done|].
      exists th. by rewrite threshold_matches_iff.
  - apply Qlt_bool_false_iff in Hlt. split.
    + intros (a & w' & H). discriminate.
    + intros (Hlt' & _). exfalso. by apply (Qlt_not_le _ _ Hlt').
Qed.

(** X4. For a numeric cost impact and anomaly score, and when the
    suppression gate accepts the key of the candidate at the time it is
    consulted, [check_anomaly] returns a candidate if and only if some
    threshold of type anomaly whose scope is the service or "all" has an
    amount that the cost impact reaches; the anomaly score and the
    percentage of the threshold play no part in the decision. *)
Theorem check_anomaly_iff anomaly_data w score impact :
  anomaly_data !! "anomaly_score"%string = Some (VNum score) ->
  anomaly_data !! "cost_impact"%string = Some (VNum impact) ->
  gate (manager w)
    ("anomaly_"
     +:+ py_str float_str (get_default anomaly_data "service" (VStr "unknown")))
    (clock (env w) (S (clock_reads w))) = true ->
  (exists a w', check_anomaly float_str anomaly_data w = (Ok (Some a), w'))
  <-> exists th, th ∈ thresholds (manager w)
                 /\ in_scope th (get_default anomaly_data "service" (VStr "unknown"))
                             "anomaly"
                 /\ (threshold_amount th <= impact)%Q.
Proof.
  intros Hs Hi Hgate. unfold check_anomaly.
  rewrite (get_default_some _ _ _ _ Hs), (get_default_some _ _ _ _ Hi).
  unfold bind at 1, get_self. split.
  - intros (a & w' & H).
    apply anomaly_loop_sound in H as (th & t & high & Hin & Hm & Hge & _).
    exists th. rewrite <- threshold_matches_iff. split; [done|]. split; [done|].
    injection Hge as Hge. by apply Qle_bool_iff.
  - intros (th & Hin & Hm & Hq). apply anomaly_loop_complete; [done|].
    exists th. rewrite threshold_matches_iff. split; [done|]. split; [done|].
    by apply Qle_bool_iff.
Qed.
Lemma cost_spike_loop_stamp ths svc cv pv inc pct w a w' :
  cost_spike_loop float_str ths svc cv pv inc pct w = (Ok (Some a), w') ->
  exists th n,
    th ∈ ths /\ (clock_reads w <= n)%nat
    /\ a = cost_spike_alert svc cv pv inc pct th (clock (env w) n).
Proof.
  revert w. induction ths as [|th rest IH]; intros w; simpl; [discriminate|].
  assert (forall w2, env w2 = env w -> (clock_reads w <= clock_reads w2)%nat ->
            cost_spike_loop float_str rest svc cv pv inc pct w2 = (Ok (Some a), w') ->
            exists th0 n, th0 ∈ th :: rest /\ (clock_reads w <= n)%nat
              /\ a = cost_spike_alert svc cv pv inc pct th0 (clock (env w) n)) as Hrec.
  { intros w2 He Hc H. apply IH in H as (th' & n & Hin & Hn & ->).
    exists th', n. rewrite He. split; [by right|]. split; [lia|done]. }
  destruct (_ && _); [|by apply Hrec].
  unfold bind at 1, now. unfold bind at 1.
  destruct (_should_send_alert _ _ _) as [[[|]|e] w2] eqn:Hg; [| |discriminate].
  - intros [= <- _]. exists th, (clock_reads w). split; [left|]. split; [lia|done].
  - apply should_send_clock in Hg as [He Hc]. simpl in He, Hc.
    apply Hrec; [done|lia].
Qed.

Lemma budget_exceeded_loop_stamp ths svc cv bv w a w' :
  budget_exceeded_loop float_str ths svc cv bv w = (Ok (Some a), w') ->
  exists ex n,
    py_sub cv bv = Ok ex /\ (clock_reads w <= n)%nat
    /\ a = budget_exceeded_alert svc cv bv ex (clock (env w) n).
Proof.
  revert w. induction ths as [|th rest IH]; intros w; simpl; [discriminate|].
  assert (forall w2, env w2 = env w -> (clock_reads w <= clock_reads w2)%nat ->
            budget_exceeded_loop float_str rest svc cv bv w2 = (Ok (Some a), w') ->
            exists ex n, py_sub cv bv = Ok ex /\ (clock_reads w <= n)%nat
              /\ a = budget_exceeded_alert svc cv bv ex (clock (env w) n)) as Hrec.
  { intros w2 He Hc H. apply IH in H as (ex & n & Hs & Hn & ->).
    exists ex, n. rewrite He. split; [done|]. split; [lia|done]. }
  destruct (threshold_matches _ _ _); [|by apply Hrec].
  unfold bind at 1, lift. destruct (py_sub cv bv) as [ex|e] eqn:Hs; [|discriminate].
  unfold bind at 1, now. unfold bind at 1.
  destruct (_should_send_alert _ _ _) as [[[|]|e] w2] eqn:Hg; [| |discriminate].
  - intros [= <- _]. exists ex, (clock_reads w). split; [done|]. split; [lia|done].
  - apply should_send_clock in Hg as [He Hc]. simpl in He, Hc.
    apply Hrec; [done|lia].
Qed.

Lemma anomaly_loop_stamp ths svc sc ci w a w' :
  anomaly_loop float_str ths svc sc ci w = (Ok (Some a), w') ->
  exists high n,
    py_gt_num sc (8 # 10) = Ok high /\ (clock_reads w <= n)%nat
    /\ a = anomaly_alert svc sc ci (clock (env w) n) high.
Proof.
  revert w. induction ths as [|th rest IH]; intros w; simpl; [discriminate|].
  assert (forall w2, env w2 = env w -> (clock_reads w <= clock_reads w2)%nat ->
            anomaly_loop float_str rest svc sc ci w2 = (Ok (Some a), w') ->
            exists high n, py_gt_num sc (8 # 10) = Ok high /\ (clock_reads w <= n)%nat
              /\ a = anomaly_alert svc sc ci (clock (env w) n) high) as Hrec.
  { intros w2 He Hc H. apply IH in H as (high & n & Hs & Hn & ->).
    exists high, n. rewrite He. split; [done|]. split; [lia|done]. }
  destruct (threshold_matches _ _ _); [|by apply Hrec].
  unfold bind at 1, lift.
  destruct (py_ge_num ci _) as [[|]|e]; [|by apply Hrec|discriminate].
  unfold bind at 1, now. unfold bind at 1.
  destruct (py_gt_num sc (8 # 10)) as [high|e] eqn:Hgt; [|discriminate].
  unfold bind at 1.
  destruct (_should_send_alert _ _ _) as [[[|]|e] w2] eqn:Hg; [| |discriminate].
  - intros [= <- _]. exists high, (clock_reads w). split; [done|]. split; [lia|done].
  - apply should_send_clock in Hg as [He Hc]. simpl in He, Hc.
    apply Hrec; [done|lia].
Qed.


Lemma gate_new_manager cfg file key t :
  gate (new_manager cfg file) key t = (0 <? max_alerts_per_hour cfg).
Proof.
  unfold gate, cooldown_active, rate_limited, hourly_count. simpl.
  rewrite !lookup_empty. simpl.
  destruct (Z.leb_spec (max_alerts_per_hour cfg) 0), (Z.ltb_spec 0 (max_alerts_per_hour cfg));
    simpl; lia || done.
Qed.


(* --------------------------------------------------------------------- *)
(** ** More on the gate and on [send_alert] *)
(* --------------------------------------------------------------------- *)

(** X7. The decision of the suppression gate, for an alert that has a
    type and a service.  It answers [True] exactly when (1) the last-sent
    map has no entry under the key [type_service], or the entry is at
    least [alert_cooldown_minutes * 60] seconds old, and (2) the counter
    of the current hour (key [%Y-%m-%d-%H]) is below
    [max_alerts_per_hour]; otherwise it answers [False]; it never
    raises. *)
Theorem should_send_decision alert key w :
  alert_key float_str alert = Ok key ->
  let accepts :=
    (forall last, last_alert_time (manager w) !! VStr key = Some last ->
       (inject_Z (alert_cooldown_minutes (config (manager w)) * 60)
        <= seconds_between last (next_time w))%Q)
    /\ hourly_count (manager w) (strftime_hour (next_time w))
       < max_alerts_per_hour (config (manager w)) in
  (result (_should_send_alert float_str alert) w = Ok true <-> accepts)
  /\ (result (_should_send_alert float_str alert) w = Ok false <-> ~ accepts).
Proof.
  intros Hk accepts. unfold result. rewrite (should_send_spec _ _ _ Hk). simpl.
  assert (gate (manager w) key (next_time w) = true <-> accepts) as Hiff.
  { unfold accepts, gate, cooldown_active, rate_limited, seconds_between.
    rewrite andb_true_iff, !negb_true_iff, Z.leb_gt.
    destruct (last_alert_time (manager w) !! VStr key) as [last|].
    - rewrite Qlt_bool_false_iff. split.
      + intros [H1 H2]. split; [|done]. by intros ? [= <-].
      + intros [H1 H2]. split; [|done]. by apply H1.
    - split; intros [_ H2]; split; done. }
  destruct (gate (manager w) key (next_time w)).
  - split; [split; [intros _; by apply Hiff|done]|].
    split; [discriminate|]. intros Hn. exfalso. by apply Hn, Hiff.
  - assert (~ accepts) by (intros Ha; apply Hiff in Ha; discriminate).
    split; [split; [discriminate|done]|done].
Qed.

(** X8. An alert without type, or without service, makes the gate raise
    [KeyError] for the missing key (the type is looked up first), and
    [send_alert] lets the exception through: nothing is sent and nothing
    changes, not even the reading count of the clock. *)
Theorem send_alert_missing_key alert w :
  alert !! "type"%string = None \/ alert !! "service"%string = None ->
  exists k,
    alert !! k = None
    /\ (k = "type"%string
        \/ (k = "service"%string /\ alert !! "type"%string <> None))
    /\ _should_send_alert float_str alert w = (Raise (KeyError k), w)
    /\ send_alert float_str alert w = (Raise (KeyError k), w).
Proof.
  intros H.
  assert (exists k, alert !! k = None
            /\ (k = "type"%string
                \/ (k = "service"%string /\ alert !! "type"%string <> None))
            /\ alert_key float_str alert = Raise (KeyError k)) as (k & Hn & Hk & Hkey).
  { unfold alert_key, getitem.
    destruct (alert !! "type"%string) as [ty|] eqn:Hty.
    - destruct H as [H|H]; [discriminate|]. exists "service"%string. rewrite H.
      split; [done|]. split; [|done]. by right.
    - exists "type"%string. rewrite Hty. split; [done|]. split; [by left|done]. }
  exists k. split; [done|]. split; [done|].
  pose proof (should_send_raise _ _ w Hkey) as Hg. split; [done|].
  by rewrite send_alert_unfold, Hg.
Qed.

Lemma send_slack_mails alert w r w' :
  _send_slack_alert alert w = (r, w') -> mails w' = mails w.
Proof.
  unfold _send_slack_alert, bind, get_self, lift, try_except, requests_post, ret, raise.
  destruct (negb _); [by intros [= _ <-]|].
  destruct (getitem alert "type") as [ty|e]; [|by intros [= _ <-]].
  destruct (if py_eq ty _ then _ else _) as [text|e]; [|by intros [= _ <-]].
  simpl. by destruct (webhook_reply _ _); intros [= _ <-].
Qed.

Lemma send_email_posts alert w r w' :
  _send_email_alert alert w = (r, w') -> posts w' = posts w.
Proof.
  unfold _send_email_alert, bind, get_self, lift, smtp_session, ret.
  destruct (negb _); [by intros [= _ <-]|].
  destruct (_ ≫= _) as [subject|e]; [|by intros [= _ <-]].
  destruct (_format_email_message alert) as [body|e]; [|by intros [= _ <-]].
  by destruct (smtp_reply _ _); intros [= _ <-].
Qed.

(** The three ways in which [send_alert] ends once the gate has
    accepted. *)
Lemma send_alert_accepted alert w w1 :
  _should_send_alert float_str alert w = (Ok true, w1) ->
  exists b wd,
    dispatch alert (snd (sleep 1 w1)) = (Ok b, wd)
    /\ channel_step (snd (sleep 1 w1)) wd
    /\ send_alert float_str alert w
       = if b then (Ok true, recorded alert wd) else (Ok false, wd).
Proof.
  intros Hg. rewrite send_alert_unfold, Hg.
  destruct (dispatch_total alert (snd (sleep 1 w1))) as (b & wd & Hd & Hc).
  exists b, wd. rewrite Hd. split; [done|]. split; [done|].
  destruct b; [apply record_delivery_spec|done].
Qed.

(** X9. The history is an append-only ledger of the delivered alerts:
    whatever [send_alert] returns, the history afterwards is the history
    before, followed by the alert exactly when the result is [True]; the
    configuration and the thresholds never change. *)
Theorem send_alert_history alert w r w' :
  send_alert float_str alert w = (r, w') ->
  config (manager w') = config (manager w)
  /\ thresholds (manager w') = thresholds (manager w)
  /\ ((r = Ok true
       /\ alert_history (manager w') = alert_history (manager w) ++ [alert])
      \/ (r <> Ok true
          /\ alert_history (manager w') = alert_history (manager w))).
Proof.
  intros Hs.
  destruct (_should_send_alert float_str alert w) as [[[|]|e] w1] eqn:Hg.
  - pose proof (should_send_quiet _ _ _ _ Hg) as [[Hc Ht Hh _ _ _] _ _ _ _].
    destruct (send_alert_accepted _ _ _ Hg) as (b & wd & _ & [Hm _ _] & Hsend).
    rewrite Hs in Hsend. destruct b; injection Hsend as -> ->; simpl;
      rewrite Hm; simpl; rewrite Hc, Ht, Hh.
    + split; [done|]. split; [done|]. by left.
    + split; [done|]. split; [done|]. by right.
  - pose proof (should_send_quiet _ _ _ _ Hg) as [[Hc Ht Hh _ _ _] _ _ _ _].
    rewrite send_alert_unfold, Hg in Hs. injection Hs as <- <-.
    split; [done|]. split; [done|]. by right.
  - pose proof (should_send_quiet _ _ _ _ Hg) as [[Hc Ht Hh _ _ _] _ _ _ _].
    rewrite send_alert_unfold, Hg in Hs. injection Hs as <- <-.
    split; [done|]. split; [done|]. by right.
Qed.

(** X10. The bookkeeping of a delivery.  When [send_alert] returns
    [True] it has read the clock three times (gate, last-sent, counter);
    the last-sent map has the second reading under the service of the
    alert (the service alone, "unknown" when absent); the counter of the
    hour of the third reading, under its ISO key, is one higher; no
    other counter has changed its value. *)
Theorem delivered_send_bookkeeping alert w w' :
  send_alert float_str alert w = (Ok true, w') ->
  let t := clock (env w) (S (clock_reads w)) in
  let hour_key := isoformat (replace_to_hour (clock (env w) (S (S (clock_reads w))))) in
  clock_reads w' = S (S (S (clock_reads w)))
  /\ last_alert_time (manager w')
     = <[dict_key (get_default alert "service" (VStr "unknown")) := t]>
         (last_alert_time (manager w))
  /\ hourly_count (manager w') hour_key = hourly_count (manager w) hour_key + 1
  /\ (forall k, k <> hour_key ->
        hourly_count (manager w') k = hourly_count (manager w) k).
Proof.
  intros Hs t hour_key.
  destruct (_should_send_alert float_str alert w) as [[[|]|e] w1] eqn:Hg;
    [|rewrite send_alert_unfold, Hg in Hs; discriminate..].
  destruct (send_alert_accepted _ _ _ Hg) as (b & wd & _ & [Hm He Hc] & Hsend).
  rewrite Hs in Hsend. destruct b; [|discriminate]. injection Hsend as ->.
  assert (env w1 = env w /\ clock_reads w1 = S (clock_reads w)) as [He1 Hc1].
  { destruct (alert_key float_str alert) as [key|e] eqn:Hk.
    - rewrite (should_send_spec _ _ _ Hk) in Hg. by injection Hg as _ <-.
    - rewrite (should_send_raise _ _ _ Hk) in Hg. discriminate. }
  apply should_send_quiet in Hg as [[_ _ _ Hl Hcnt _] _ _ _ _].
  simpl in Hm, He, Hc. unfold recorded. cbn [manager clock_reads last_alert_time
    alert_count_hourly]. rewrite He, Hc, He1, Hc1, Hm.
  fold t. fold hour_key. rewrite Hl.
  split; [done|]. split; [done|]. split.
  - unfold hourly_count at 1. cbn [alert_count_hourly].
    rewrite lookup_insert_eq. simpl. by rewrite Hcnt.
  - intros k Hne. unfold hourly_count at 1. cbn [alert_count_hourly].
    rewrite lookup_insert_ne by done. apply Hcnt.
Qed.

(* --------------------------------------------------------------------- *)
(** ** The channels *)
(* --------------------------------------------------------------------- *)

(** The world after a POST of [text] to the webhook. *)
Lemma send_slack_alert_spec alert w :
  _send_slack_alert alert w
  = if truthy (slack_webhook_url (config (manager w))) then
      match slack_text alert with
      | Ok text =>
          (Ok tt, snd (requests_post (slack_webhook_url (config (manager w))) text w))
      | Raise e => (Raise e, w)
      end
    else (Ok tt, w).
Proof.
  unfold _send_slack_alert, slack_text, bind, get_self, lift, try_except.
  destruct (truthy _); simpl; [|done].
  destruct (getitem alert "type") as [ty|e]; simpl; [|done].
  destruct (if py_eq ty _ then _ else _) as [text|e]; [|done].
  unfold requests_post, ret, raise. by destruct (webhook_reply _ _).
Qed.

Lemma send_email_alert_skipped alert w :
  email_complete (config (manager w)) = false ->
  _send_email_alert alert w = (Ok tt, w).
Proof.
  unfold email_complete, _send_email_alert, bind, get_self. by intros ->.
Qed.

Lemma send_email_alert_failure alert w :
  email_complete (config (manager w)) = true ->
  smtp_reply (env w) (mails w) = SmtpFailure ->
  exists e w', _send_email_alert alert w = (Raise e, w') /\ posts w' = posts w.
Proof.
  unfold email_complete, _send_email_alert, bind, get_self, lift, smtp_session.
  intros -> Hf. simpl.
  destruct (_ ≫= _) as [subject|e]; [|eauto].
  destruct (_format_email_message alert) as [body|e]; [|eauto].
  rewrite Hf. eauto.
Qed.

Lemma dispatch_spec alert w :
  dispatch alert w
  = let cfg := config (manager w) in
    let sw := if truthy (slack_webhook_url cfg)
              then (is_ok (fst (_send_slack_alert alert w)),
                    snd (_send_slack_alert alert w))
              else (true, w) in
    if truthy (email_smtp_server cfg)
    then (Ok (is_ok (fst (_send_email_alert alert (snd sw))) && fst sw),
          snd (_send_email_alert alert (snd sw)))
    else (Ok (fst sw), snd sw).
Proof.
  unfold dispatch, bind, get_self. simpl.
  destruct (truthy (slack_webhook_url _)); simpl.
  - rewrite attempt_spec, andb_true_r.
    destruct (truthy (email_smtp_server _)); [by rewrite attempt_spec|done].
  - unfold ret at 1.
    destruct (truthy (email_smtp_server _)); [by rewrite attempt_spec|done].
Qed.

(** X11. A half-configured email channel is skipped in silence.  With an
    SMTP server configured but no user name, no password or no
    recipient (and no webhook), [send_alert] on a candidate that the gate
    accepts opens no SMTP session and still returns [True] and appends
    the alert to the history. *)
Theorem incomplete_email_is_skipped alert w w1 :
  slack_webhook_url (config (manager w)) = ""%string ->
  email_smtp_server (config (manager w)) <> ""%string ->
  email_username (config (manager w)) = ""%string
  \/ email_password (config (manager w)) = ""%string
  \/ email_recipients (config (manager w)) = [] ->
  _should_send_alert float_str alert w = (Ok true, w1) ->
  exists w2,
    send_alert float_str alert w = (Ok true, w2)
    /\ mails w2 = mails w /\ posts w2 = posts w
    /\ alert_history (manager w2) = alert_history (manager w) ++ [alert].
Proof.
  intros Hs He Hinc Hg.
  destruct (send_alert_accepted _ _ _ Hg) as (b & wd & Hd & _ & Hsend).
  pose proof (should_send_quiet _ _ _ _ Hg) as [[Hc _ Hh _ _ _] _ Hp Hm _].
  assert (email_complete (config (manager w1)) = false) as Hic.
  { rewrite Hc. unfold email_complete.
    destruct Hinc as [-> | [-> | ->]]; simpl;
      by rewrite ?andb_false_r. }
  rewrite dispatch_spec in Hd. cbn [manager sleep emit snd] in Hd.
  rewrite Hc, Hs in Hd. cbn [truthy String.eqb negb] in Hd.
  rewrite send_email_alert_skipped in Hd by done.
  destruct (truthy (email_smtp_server _)); simpl in Hd;
    injection Hd as <- <-; rewrite Hsend; eexists; (split; [reflexivity|]);
    simpl; by rewrite Hp, Hm, Hh.
Qed.

(** X12. A failed SMTP session makes the alert not delivered.  With the
    email channel fully configured, when the session of this send fails,
    [send_alert] on a candidate that the gate accepts returns [False];
    the history, the last-sent map and the value of every hourly counter
    stay as they were. *)
Theorem smtp_failure_not_delivered alert w w1 :
  email_complete (config (manager w)) = true ->
  smtp_reply (env w) (mails w) = SmtpFailure ->
  _should_send_alert float_str alert w = (Ok true, w1) ->
  exists w2,
    send_alert float_str alert w = (Ok false, w2)
    /\ alert_history (manager w2) = alert_history (manager w)
    /\ last_alert_time (manager w2) = last_alert_time (manager w)
    /\ (forall k, hourly_count (manager w2) k = hourly_count (manager w) k).
Proof.
  intros Hcomplete Hfail Hg.
  destruct (send_alert_accepted _ _ _ Hg) as (b & wd & Hd & [Hmd _ _] & Hsend).
  pose proof (should_send_quiet _ _ _ _ Hg) as [[Hc _ Hh Hl Hcnt _] Henv _ Hm _].
  assert (b = false) as ->.
  { rewrite dispatch_spec in Hd.
    set (w1' := snd (sleep 1 w1)) in *.
    assert (manager w1' = manager w1 /\ env w1' = env w1 /\ mails w1' = mails w1)
      as (Hm1 & He1 & Hmails1) by done.
    cbv zeta in Hd. rewrite Hm1 in Hd.
    set (sw := if truthy (slack_webhook_url _) then _ else _) in Hd.
    assert (manager (snd sw) = manager w1 /\ env (snd sw) = env w
            /\ mails (snd sw) = mails w) as (Hsm & Hse & Hsmails).
    { unfold sw. destruct (truthy _); simpl; [|split; [|split]; congruence].
      destruct (_send_slack_alert alert w1') as [r ws] eqn:E.
      pose proof (send_slack_channel_step _ _ _ _ E) as [? ? _].
      apply send_slack_mails in E. simpl.
      split; [congruence|]. split; congruence. }
    assert (truthy (email_smtp_server (config (manager w1))) = true) as Ht.
    { rewrite Hc. unfold email_complete in Hcomplete.
      rewrite !andb_true_iff in Hcomplete. by destruct Hcomplete as [[[-> _] _] _]. }
    rewrite Ht in Hd.
    destruct (send_email_alert_failure alert (snd sw)) as (e & w' & He & _).
    - by rewrite Hsm, Hc.
    - by rewrite Hse, Hsmails.
    - rewrite He in Hd. by injection Hd as <- _. }
  rewrite Hsend. eexists. split; [reflexivity|].
  rewrite Hmd. simpl. by rewrite Hh, Hl.
Qed.
Lemma collect_is_ok l : is_ok (collect l) = forallb is_ok l.
Proof.
  induction l as [|[p|e] l IH]; simpl; [done| |done].
  rewrite <- IH. by destruct (collect l).
Qed.

Lemma fmt_value_missing (alert : dict) key :
  alert !! key = None -> is_ok (fmt_value alert key) = false.
Proof. unfold fmt_value, getitem. by intros ->. Qed.

(** A template that interpolates an absent field cannot be filled in. *)
Ltac template_fails H :=
  match goal with
  | |- context [collect ?l] =>
      let E := fresh "E" in
      assert (is_ok (collect l) = false) as E
        by (rewrite collect_is_ok; simpl; rewrite (fmt_value_missing _ _ H);
            by rewrite ?andb_false_r);
      destruct (collect l); [discriminate E | done]
  end.

(** No template can be filled in without the timestamp of the alert. *)
Lemma slack_text_needs_timestamp alert :
  alert !! "timestamp"%string = None -> is_ok (slack_text alert) = false.
Proof.
  intros H.
  unfold slack_text, _format_cost_spike_slack_message,
    _format_budget_exceeded_slack_message, _format_anomaly_slack_message,
    _format_generic_slack_message, mbind, outcome_bind.
  destruct (getitem alert "type") as [ty|e]; [|done].
  destruct (py_eq ty (VStr "cost_spike")).
  { destruct (getitem alert "severity"); [|done]. template_fails H. }
  destruct (py_eq ty (VStr "budget_exceeded")); [template_fails H|].
  destruct (py_eq ty (VStr "anomaly")).
  { destruct (getitem alert "severity"); [|done]. template_fails H. }
  template_fails H.
Qed.

Lemma email_message_needs_timestamp alert :
  alert !! "timestamp"%string = None -> is_ok (_format_email_message alert) = false.
Proof.
  intros H. unfold _format_email_message, mbind, outcome_bind.
  destruct (getitem alert "type") as [ty|e]; [|done].
  repeat (destruct (py_eq ty _); [template_fails H|]).
  template_fails H.
Qed.

Lemma send_email_alert_needs_timestamp alert w :
  alert !! "timestamp"%string = None ->
  snd (_send_email_alert alert w) = w.
Proof.
  intros H. unfold _send_email_alert, bind, get_self, lift.
  destruct (negb _); [done|]. simpl.
  destruct (_ ≫= _) as [subject|e]; [|done].
  pose proof (email_message_needs_timestamp _ H) as Hb.
  by destruct (_format_email_message alert).
Qed.

(** X13. An alert without timestamp is never delivered through a
    configured webhook: no template can be filled in, so nothing is
    posted, nothing is mailed, [send_alert] returns [False] and the
    history stays as it was. *)
Theorem alert_without_timestamp_not_delivered alert w w1 :
  slack_webhook_url (config (manager w)) <> ""%string ->
  alert !! "timestamp"%string = None ->
  _should_send_alert float_str alert w = (Ok true, w1) ->
  exists w2,
    send_alert float_str alert w = (Ok false, w2)
    /\ posts w2 = posts w /\ mails w2 = mails w
    /\ alert_history (manager w2) = alert_history (manager w).
Proof.
  intros Hurl Hts Hg.
  destruct (send_alert_accepted _ _ _ Hg) as (b & wd & Hd & _ & Hsend).
  pose proof (should_send_quiet _ _ _ _ Hg) as [[Hc _ Hh _ _ _] _ Hp Hm _].
  rewrite dispatch_spec in Hd. cbv zeta in Hd.
  change (manager (snd (sleep 1 w1))) with (manager w1) in Hd.
  assert (truthy (slack_webhook_url (config (manager w1))) = true) as Ht.
  { rewrite Hc. unfold truthy. apply negb_true_iff, String.eqb_neq. done. }
  rewrite Ht in Hd. rewrite send_slack_alert_spec in Hd.
  change (manager (snd (sleep 1 w1))) with (manager w1) in Hd. rewrite Ht in Hd.
  pose proof (slack_text_needs_timestamp _ Hts) as Hno.
  destruct (slack_text alert) as [text|e]; [discriminate|].
  cbn [fst snd is_ok] in Hd. rewrite andb_false_r in Hd.
  assert (wd = snd (sleep 1 w1) /\ b = false) as [-> ->].
  { destruct (truthy (email_smtp_server _)).
    - injection Hd as <- <-. by rewrite send_email_alert_needs_timestamp.
    - by injection Hd as <- <-. }
  rewrite Hsend. eexists. split; [reflexivity|]. simpl. by rewrite Hp, Hm, Hh.
Qed.

(** X14. Partial failure.  With the webhook and the email channel both
    configured, an alert whose Slack message can be formatted, and an
    SMTP session that fails: the message has been posted to the webhook,
    yet [send_alert] returns [False] and records nothing, so that a later
    retry posts the message again. *)
Theorem partial_failure_posts_to_slack alert text w w1 :
  slack_webhook_url (config (manager w)) <> ""%string ->
  slack_text alert = Ok text ->
  email_complete (config (manager w)) = true ->
  smtp_reply (env w) (mails w) = SmtpFailure ->
  _should_send_alert float_str alert w = (Ok true, w1) ->
  exists w2,
    send_alert float_str alert w = (Ok false, w2)
    /\ posts w2 = S (posts w)
    /\ alert_history (manager w2) = alert_history (manager w)
    /\ last_alert_time (manager w2) = last_alert_time (manager w).
Proof.
  intros Hurl Htext Hcomplete Hfail Hg.
  destruct (send_alert_accepted _ _ _ Hg) as (b & wd & Hd & [Hmd _ _] & Hsend).
  pose proof (should_send_quiet _ _ _ _ Hg) as [[Hc _ Hh Hl _ _] Henv Hp Hm _].
  rewrite dispatch_spec in Hd. cbv zeta in Hd.
  change (manager (snd (sleep 1 w1))) with (manager w1) in Hd.
  assert (truthy (slack_webhook_url (config (manager w1))) = true) as Ht.
  { rewrite Hc. unfold truthy. apply negb_true_iff, String.eqb_neq. done. }
  assert (truthy (email_smtp_server (config (manager w1))) = true) as Hte.
  { rewrite Hc. unfold email_complete in Hcomplete.
    rewrite !andb_true_iff in Hcomplete. by destruct Hcomplete as [[[-> _] _] _]. }
  rewrite Ht, Hte in Hd. rewrite send_slack_alert_spec in Hd.
  change (manager (snd (sleep 1 w1))) with (manager w1) in Hd.
  rewrite Ht, Htext in Hd. cbn [fst snd is_ok] in Hd.
  set (ws := snd (requests_post _ text _)) in Hd.
  destruct (send_email_alert_failure alert ws) as (e & w' & He & Hposts).
  - unfold ws. simpl. by rewrite Hc.
  - unfold ws. simpl. by rewrite Henv, Hm.
  - rewrite He in Hd. injection Hd as <- <-.
    rewrite Hsend. eexists. split; [reflexivity|].
    rewrite Hmd, Hposts. unfold ws. simpl. by rewrite Hp, Hh, Hl.
Qed.

(* --------------------------------------------------------------------- *)
(** ** The history query *)
(* --------------------------------------------------------------------- *)

Lemma recent_alerts_filter t td history :
  timestamps_parse history ->
  recent_alerts t td history = Ok (List.filter (is_recent t td) history).
Proof.
  induction 1 as [|a rest (s & stamp & Hs & Hp) _ IH]; simpl; [done|].
  unfold getitem, is_recent. rewrite Hs. simpl. rewrite Hp. simpl.
  rewrite IH. simpl. by destruct (dt_after stamp t td).
Qed.

(** A record without timestamp, or whose timestamp is not a string,
    makes the comprehension raise. *)
Lemma recent_alerts_bad_timestamp t td history a :
  a ∈ history ->
  a !! "timestamp"%string = None
  \/ (exists v, a !! "timestamp"%string = Some v /\ forall s, v <> VStr s) ->
  is_ok (recent_alerts t td history) = false.
Proof.
  intros Hin Hbad. induction history as [|b rest IH]; [by apply elem_of_nil in Hin|].
  cbn [recent_alerts]. unfold mbind, outcome_bind.
  apply elem_of_cons in Hin as [<-|Hin].
  - unfold getitem. destruct Hbad as [-> | (v & -> & Hv)]; [done|].
    destruct v as [|s|q]; [done| |done]. by destruct (Hv s).
  - specialize (IH Hin). destruct (getitem b "timestamp") as [ts|e]; [|done].
    destruct (fromisoformat_value ts) as [stamp|e]; [|done].
    by destruct (recent_alerts t td rest).
Qed.

Lemma get_alert_history_ok hours w :
  timestamps_parse (alert_history (manager w)) ->
  exists w',
    get_alert_history hours w
    = (Ok (List.filter (is_recent (next_time w) (timedelta_hours hours))
             (alert_history (manager w))), w').
Proof.
  intros Hparse. unfold get_alert_history, bind, now, get_self, lift.
  cbn [manager]. fold (next_time w).
  rewrite (recent_alerts_filter _ _ _ Hparse). eauto.
Qed.



Lemma recent_alerts_monotone t td1 td2 history l :
  td1 <= td2 ->
  recent_alerts t td1 history = Ok l ->
  exists l', recent_alerts t td2 history = Ok l' /\ sublist l l'.
Proof.
  intros Hle. revert l. induction history as [|a rest IH]; intros l.
  - intros [= <-]. by exists [].
  - cbn [recent_alerts]. unfold mbind, outcome_bind.
    destruct (getitem a "timestamp") as [ts|e]; [|discriminate].
    destruct (fromisoformat_value ts) as [stamp|e]; [|discriminate].
    destruct (recent_alerts t td1 rest) as [kept|e]; [|discriminate].
    destruct (IH kept eq_refl) as (kept' & -> & Hsub).
    intros [= <-]. eexists. split; [reflexivity|].
    destruct (dt_after stamp t td1) eqn:E1.
    + assert (dt_after stamp t td2 = true) as ->.
      { unfold dt_after in *. apply Z.ltb_lt in E1. apply Z.ltb_lt. lia. }
      by apply sublist_skip.
    + destruct (dt_after stamp t td2); [by apply sublist_cons|done].
Qed.


(** X18. One bad record blocks every query: when some record of the
    history has no timestamp, or a timestamp that is not a string,
    [get_alert_history] raises for every window. *)
Theorem get_alert_history_bad_record hours w a :
  a ∈ alert_history (manager w) ->
  a !! "timestamp"%string = None
  \/ (exists v, a !! "timestamp"%string = Some v /\ forall s, v <> VStr s) ->
  exists e w', get_alert_history hours w = (Raise e, w').
Proof.
  intros Hin Hbad. unfold get_alert_history, bind, now, get_self, lift.
  cbn [manager].
  pose proof (recent_alerts_bad_timestamp (clock (env w) (clock_reads w))
                (timedelta_hours hours) _ _ Hin Hbad) as Hno.
  destruct (recent_alerts _ _ _); [discriminate|eauto].
Qed.
(** X19. An alert without timestamp, delivered by a manager without
    channels, poisons the history: [send_alert] returns [True] and
    appends it, and from then on [get_alert_history] raises for every
    window. *)
Theorem untimestamped_alert_poisons_history alert w w1 :
  slack_webhook_url (config (manager w)) = ""%string ->
  email_smtp_server (config (manager w)) = ""%string ->
  alert !! "timestamp"%string = None ->
  _should_send_alert float_str alert w = (Ok true, w1) ->
  exists w2,
    send_alert float_str alert w = (Ok true, w2)
    /\ forall hours, exists e w3, get_alert_history hours w2 = (Raise e, w3).
Proof.
  intros Hs He Hts Hg.
  destruct (send_alert_accepted _ _ _ Hg) as (b & wd & Hd & _ & Hsend).
  pose proof (should_send_quiet _ _ _ _ Hg) as [[Hc _ _ _ _ _] _ _ _ _].
  rewrite dispatch_no_channel in Hd by (simpl; congruence).
  injection Hd as <- <-. rewrite Hsend. eexists. split; [reflexivity|].
  intros hours. unfold get_alert_history, bind, now, get_self, lift.
  cbn [manager recorded alert_history].
  match goal with |- context [recent_alerts ?t ?td ?h] =>
    assert (is_ok (recent_alerts t td h) = false) as Hbad
      by (apply (recent_alerts_bad_timestamp t td h alert);
          [apply elem_of_app; right; left | by left]);
    destruct (recent_alerts t td h); [discriminate Hbad | eauto]
  end.
Qed.

(* --------------------------------------------------------------------- *)
(** ** The statistics *)
(* --------------------------------------------------------------------- *)

(** X20. Every record of the history has a type and a service: the
    history of a new manager is empty, and [send_alert] preserves the
    property, whatever alert it is given and whatever it returns. *)
Theorem history_records_are_keyed alert w r w' :
  keyed (alert_history (manager w)) ->
  send_alert float_str alert w = (r, w') ->
  keyed (alert_history (manager w')).
Proof.
  intros Hk Hs.
  destruct (_should_send_alert float_str alert w) as [[[|]|e] w1] eqn:Hg.
  - pose proof (should_send_quiet _ _ _ _ Hg) as [[_ _ Hh _ _ _] _ _ _ _].
    destruct (send_alert_accepted _ _ _ Hg) as (b & wd & _ & [Hm _ _] & Hsend).
    rewrite Hs in Hsend. destruct b; injection Hsend as -> ->; simpl;
      rewrite Hm; simpl; rewrite Hh; [|done].
    apply Forall_app. split; [done|]. constructor; [|constructor].
    destruct (alert_key float_str alert) as [key|e] eqn:Hkey.
    + unfold alert_key, getitem in Hkey.
      destruct (alert !! "type"%string); [|discriminate].
      destruct (alert !! "service"%string); [|discriminate]. by split.
    + rewrite (should_send_raise _ _ _ Hkey) in Hg. discriminate.
  - pose proof (should_send_quiet _ _ _ _ Hg) as [[_ _ Hh _ _ _] _ _ _ _].
    rewrite send_alert_unfold, Hg in Hs. injection Hs as <- <-. by rewrite Hh.
  - pose proof (should_send_quiet _ _ _ _ Hg) as [[_ _ Hh _ _ _] _ _ _ _].
    rewrite send_alert_unfold, Hg in Hs. injection Hs as <- <-. by rewrite Hh.
Qed.

Lemma count_types_spec history acc :
  keyed history ->
  exists types,
    count_types history acc = Ok types
    /\ forall k, default 0 (types !! k) = default 0 (acc !! k) + count_of_type k history.
Proof.
  intros Hk. revert acc.
  induction Hk as [|a rest [[ty Hty] _] _ IH]; intros acc.
  - exists acc. split; [done|]. intros k. unfold count_of_type. simpl. lia.
  - cbn [count_types]. unfold getitem. rewrite Hty.
    unfold mbind, outcome_bind.
    destruct (IH (<[dict_key ty := default 0 (acc !! dict_key ty) + 1]> acc))
      as (types & -> & Hcount).
    exists types. split; [done|]. intros k. rewrite Hcount.
    unfold count_of_type. cbn [List.filter]. rewrite Hty. cbn [fmap option_fmap option_map].
    destruct (decide (dict_key ty = k)) as [<-|Hne].
    + rewrite lookup_insert_eq, bool_decide_eq_true_2 by done.
      simpl. lia.
    + rewrite lookup_insert_ne by done.
      rewrite bool_decide_eq_false_2 by congruence. lia.
Qed.

Lemma filter_length_le {A} (f g : A -> bool) (l : list A) :
  (forall a, a ∈ l -> f a = true -> g a = true) ->
  (length (List.filter f l) <= length (List.filter g l))%nat.
Proof.
  induction l as [|a l IH]; intros H; simpl; [lia|].
  assert (length (List.filter f l) <= length (List.filter g l))%nat as Hle.
  { apply IH. intros b Hb. apply H. by right. }
  destruct (f a) eqn:Ef.
  - rewrite (H a); [simpl; lia | left | done].
  - destruct (g a); simpl; lia.
Qed.

Lemma filter_length_all {A} (f : A -> bool) (l : list A) :
  (length (List.filter f l) <= length l)%nat.
Proof.
  induction l as [|a l IH]; simpl; [lia|]. destruct (f a); simpl; lia.
Qed.


(* --------------------------------------------------------------------- *)
(** ** The callers *)
(* --------------------------------------------------------------------- *)

Lemma check_anomaly_quiet data w r w' :
  check_anomaly float_str data w = (r, w') -> quiet_step w w'.
Proof. unfold check_anomaly, bind, get_self. apply anomaly_loop_quiet. Qed.

Lemma check_anomaly_of_record data w a w' :
  check_anomaly float_str data w = (Ok (Some a), w') ->
  alert_of_record [data] a.
Proof.
  unfold check_anomaly. unfold bind at 1, get_self. intros H.
  apply anomaly_loop_stamp in H as (high & n & _ & _ & ->).
  split; [reflexivity|]. exists data. split; [left|]. split; reflexivity.
Qed.

Lemma send_slack_posts alert w :
  (posts (snd (_send_slack_alert alert w)) <= S (posts w))%nat.
Proof.
  rewrite send_slack_alert_spec. destruct (truthy _); [|simpl; lia].
  destruct (slack_text alert); simpl; lia.
Qed.

Lemma dispatch_posts alert w b wd :
  dispatch alert w = (Ok b, wd) -> (posts wd <= S (posts w))%nat.
Proof.
  rewrite dispatch_spec. cbv zeta.
  pose proof (send_slack_posts alert w) as Hs.
  destruct (truthy (slack_webhook_url _));
    destruct (truthy (email_smtp_server _)); intros [= _ <-]; cbn [fst snd];
    try lia;
    match goal with
    | |- context [_send_email_alert alert ?v] =>
        rewrite (send_email_posts alert v _ _ (surjective_pairing _))
    end; cbn [fst snd]; lia.
Qed.

Lemma send_alert_step alert w r w' :
  send_alert float_str alert w = (r, w') ->
  config (manager w') = config (manager w)
  /\ (alert_history (manager w') = alert_history (manager w)
      \/ alert_history (manager w') = alert_history (manager w) ++ [alert])
  /\ (posts w' <= S (posts w))%nat.
Proof.
  intros Hs.
  destruct (_should_send_alert float_str alert w) as [[[|]|e] w1] eqn:Hg;
    pose proof (should_send_quiet _ _ _ _ Hg) as [[Hc _ Hh _ _ _] _ Hp _ _].
  - destruct (send_alert_accepted _ _ _ Hg) as (b & wd & Hd & [Hm _ _] & Hsend).
    apply dispatch_posts in Hd. simpl in Hd.
    rewrite Hs in Hsend. destruct b; injection Hsend as -> ->; simpl;
      rewrite Hm; simpl; rewrite Hh, Hc.
    + split; [done|]. split; [by right|lia].
    + split; [done|]. split; [by left|lia].
  - rewrite send_alert_unfold, Hg in Hs. injection Hs as <- <-.
    split; [done|]. split; [by left|lia].
  - rewrite send_alert_unfold, Hg in Hs. injection Hs as <- <-.
    split; [done|]. split; [by left|lia].
Qed.

Lemma process_anomaly_step anomaly w r w' :
  process_anomaly float_str anomaly w = (r, w') ->
  config (manager w') = config (manager w)
  /\ (alert_history (manager w') = alert_history (manager w)
      \/ exists a, alert_history (manager w') = alert_history (manager w) ++ [a]
                   /\ alert_of_record [anomaly] a)
  /\ (posts w' <= S (posts w))%nat.
Proof.
  unfold process_anomaly. unfold bind at 1, lift.
  destruct (print_anomaly anomaly) as [[]|e0];
    [|intros [= _ <-]; split; [done|]; split; [by left|lia]].
  unfold bind at 1.
  destruct (check_anomaly float_str anomaly w) as [[alert|e] wa] eqn:Hc;
    pose proof (check_anomaly_quiet _ _ _ _ Hc) as [[Hcfg _ Hh _ _ _] _ Hp _ _];
    [|intros [= _ <-]; split; [done|]; split; [by left|lia]].
  destruct alert as [a|].
  - destruct (bool_decide (a = ∅)).
    + unfold bind, ret, sleep, emit. intros [= _ <-]. simpl.
      split; [done|]. split; [by left|lia].
    + unfold bind at 1. unfold bind at 1.
      destruct (send_alert float_str a wa) as [[b|e] ws] eqn:Hs;
        apply send_alert_step in Hs as (Hcs & Hhs & Hps).
      * unfold ret, sleep, emit. intros [= _ <-]. simpl. rewrite <- Hh, Hcs.
        split; [done|]. split; [|lia]. destruct Hhs as [->| ->]; [by left|right].
        exists a. split; [done|]. by apply check_anomaly_of_record in Hc.
      * intros [= _ <-]. rewrite <- Hh, Hcs.
        split; [done|]. split; [|lia]. destruct Hhs as [->| ->]; [by left|right].
        exists a. split; [done|]. by apply check_anomaly_of_record in Hc.
  - unfold bind, ret, sleep, emit. intros [= _ <-]. simpl.
    split; [done|]. split; [by left|lia].
Qed.

Lemma alert_of_record_weaken l l' a :
  (forall x, x ∈ l -> x ∈ l') -> alert_of_record l a -> alert_of_record l' a.
Proof.
  intros Hsub [Ht (x & Hx & Hs & Hc)]. split; [done|]. exists x. auto.
Qed.

Lemma alert_of_record_head anomaly rest a :
  alert_of_record [anomaly] a -> alert_of_record (anomaly :: rest) a.
Proof.
  apply alert_of_record_weaken.
  intros x Hx. apply list_elem_of_singleton in Hx as ->. left.
Qed.

Lemma alert_of_record_tail anomaly rest new :
  Forall (alert_of_record rest) new ->
  Forall (alert_of_record (anomaly :: rest)) new.
Proof.
  intros H. eapply Forall_impl; [exact H|]. intros a0.
  apply alert_of_record_weaken. intros x Hx. by right.
Qed.

Lemma trigger_loop_ledger anomalies w r w' :
  trigger_loop float_str anomalies w = (r, w') ->
  exists new,
    config (manager w') = config (manager w)
    /\ alert_history (manager w') = alert_history (manager w) ++ new
    /\ (length new <= length anomalies)%nat
    /\ Forall (alert_of_record anomalies) new
    /\ (posts w' <= posts w + length anomalies)%nat.
Proof.
  revert w. induction anomalies as [|anomaly rest IH]; intros w; simpl.
  - intros [= _ <-]. exists []. rewrite app_nil_r. repeat split; auto; simpl; lia.
  - unfold bind at 1.
    destruct (process_anomaly float_str anomaly w) as [[[]|e] w1] eqn:Hp;
      apply process_anomaly_step in Hp as (Hcfg & Hh & Hposts).
    + intros H. apply IH in H as (new & Hc & Hn & Hlen & Hall & Hps).
      apply (alert_of_record_tail anomaly) in Hall. rewrite Hcfg in Hc.
      destruct Hh as [Hh|(a & Hh & Ha)]; rewrite Hh in Hn.
      * exists new. repeat split; auto; lia.
      * exists (a :: new). rewrite <- app_assoc in Hn.
        apply (alert_of_record_head _ rest) in Ha.
        repeat split; auto; simpl; lia.
    + intros [= _ <-].
      destruct Hh as [Hh|(a & Hh & Ha)]; rewrite Hh.
      * exists []. rewrite app_nil_r. repeat split; auto; simpl; lia.
      * exists [a]. apply (alert_of_record_head _ rest) in Ha.
        repeat split; auto; simpl; lia.
Qed.

(** X22. The trigger script delivers at most one alert per record.  A
    run of [trigger_alerts] with a configuration works on a fresh
    manager; whatever the run returns, the history then holds at most as
    many alerts as there are records, each of type anomaly and carrying
    the service and the cost impact of one of the records, and at most
    one webhook request per record has been made. *)
Theorem trigger_alerts_ledger cfg file anomalies w r w' :
  trigger_alerts float_str (Some cfg) file anomalies w = (r, w') ->
  config (manager w') = cfg
  /\ (length (alert_history (manager w')) <= length anomalies)%nat
  /\ Forall (alert_of_record anomalies) (alert_history (manager w'))
  /\ (posts w' <= posts w + length anomalies)%nat.
Proof.
  unfold trigger_alerts. unfold bind at 1, install, modify_self.
  destruct anomalies as [|x rest].
  - intros [= _ <-]. simpl. repeat split; auto; lia.
  - intros H.
    apply trigger_loop_ledger in H as (new & Hc & Hn & Hlen & Hall & Hp).
    simpl in Hc, Hn, Hp. rewrite Hn. by repeat split.
Qed.

Lemma trigger_loop_abort pre bad post w :
  is_ok (print_anomaly bad) = false ->
  exists e,
    trigger_loop float_str (pre ++ bad :: post) w
    = (Raise e, snd (trigger_loop float_str pre w)).
Proof.
  intros Hbad. revert w. induction pre as [|x pre IH]; intros w; simpl.
  - unfold bind at 1, process_anomaly. unfold bind at 1, lift.
    destruct (print_anomaly bad) as [|e]; [discriminate|]. by exists e.
  - unfold bind.
    destruct (process_anomaly float_str x w) as [[[]|e] w1]; [apply IH|].
    by exists e.
Qed.

(** X23. One unprintable record stops the batch.  Before it evaluates a
    record, [trigger_alerts] prints its service, date, cost impact (as a
    number) and description; a record for which this fails (a field is
    missing, or the cost impact is no number) ends the run with an
    exception, and the state is the one reached after the records before
    it: the records after it are never evaluated. *)
Theorem trigger_alerts_stops_at_unprintable cfg file pre bad post w :
  is_ok (print_anomaly bad) = false ->
  exists e,
    trigger_alerts float_str (Some cfg) file (pre ++ bad :: post) w
    = (Raise e, snd (trigger_alerts float_str (Some cfg) file pre w)).
Proof.
  intros Hbad. unfold trigger_alerts. unfold bind at 1 2, install, modify_self.
  set (w0 := mk_world _ _ _ _ _ _).
  destruct (trigger_loop_abort pre bad post w0 Hbad) as (e & He).
  exists e. destruct pre as [|x pre]; [|exact He].
  change ([] ++ bad :: post) with (bad :: post) in *. cbv iota.
  rewrite He. done.
Qed.

Lemma print_anomaly_needs key anomaly :
  key ∈ ["service"; "date"; "cost_impact"; "description"]%string ->
  anomaly !! key = None -> is_ok (print_anomaly anomaly) = false.
Proof.
  intros Hin Hk. unfold print_anomaly, fmt_value, fmt_float, getitem.
  repeat (apply elem_of_cons in Hin as [->|Hin]; [rewrite Hk|]).
  - done.
  - by destruct (anomaly !! "service"%string).
  - destruct (anomaly !! "service"%string); [|done]. simpl.
    by destruct (anomaly !! "date"%string).
  - destruct (anomaly !! "service"%string); [|done]. simpl.
    destruct (anomaly !! "date"%string); [|done]. simpl.
    by destruct (anomaly !! "cost_impact"%string) as [[]|].
  - by apply elem_of_nil in Hin.
Qed.

(** X24. The pipeline turns a percentage into the anomaly score.  For a
    record with a numeric [percentage_diff], the record handed to
    [check_anomaly] carries that percentage over 100 as its score, so a
    candidate obtained from it has severity high exactly when the
    percentage is above 80; its service is the [service_desc] of the
    record when that is set and the [service] (or "unknown") otherwise;
    the severity named by the record itself is not used. *)
Theorem percentage_diff_sets_severity anomaly p d w a w' :
  anomaly !! "percentage_diff"%string = Some (VNum p) ->
  anomaly_data_of anomaly = Ok d ->
  check_anomaly float_str d w = (Ok (Some a), w') ->
  a !! "anomaly_score"%string = Some (VNum (p / 100))
  /\ a !! "severity"%string
     = Some (VStr (if Qlt_bool 80 p then "high" else "medium"))
  /\ a !! "service"%string
     = Some (get_or anomaly "service_desc"
               (get_default anomaly "service" (VStr "unknown"))).
Proof.
  intros Hp. unfold anomaly_data_of. rewrite Hp. simpl. intros [= <-].
  unfold check_anomaly. unfold bind at 1, get_self. intros H.
  apply anomaly_loop_stamp in H as (high & n & Hs & _ & ->).
  assert (high = Qlt_bool 80 p) as ->.
  { revert Hs. unfold get_default. simpl. intros [= <-].
    unfold Qlt_bool. f_equal. apply eq_true_iff_eq.
    rewrite !Qle_bool_iff. destruct p as [pn pd].
    unfold Qle, Qdiv, Qmult, Qinv. simpl. lia. }
  repeat split.
Qed.

Lemma exclusive_filters {A} (f g h : A -> bool) (l : list A) :
  (forall x, (Nat.b2n (f x) + Nat.b2n (g x) + Nat.b2n (h x) <= 1)%nat) ->
  (length (List.filter f l) + length (List.filter g l)
   + length (List.filter h l) <= length l)%nat.
Proof.
  intros Hex. induction l as [|x l IH]; simpl; [lia|].
  specialize (Hex x). destruct (f x), (g x), (h x); simpl in *; lia.
Qed.

Lemma severities_exclusive (a : dict) :
  (Nat.b2n (has_severity "critical" a) + Nat.b2n (has_severity "high" a)
   + Nat.b2n (bool_decide (a !! "severity"%string = None)) <= 1)%nat.
Proof.
  unfold has_severity, get_default.
  destruct (a !! "severity"%string) as [[|s|q]|];
    cbn -[String.eqb]; try lia.
  destruct (String.eqb s "critical") eqn:Hc.
  - apply String.eqb_eq in Hc as ->. cbn. lia.
  - destruct (String.eqb s "high"); cbn; lia.
Qed.

(** X25. The summary of the dashboard.  [get_alert_summary] yields the
    empty dictionary exactly for an empty history; otherwise the total is
    the number of records, and the critical and high counts together
    never exceed it: a record counts for at most one of them, and a
    record without a severity for neither. *)
Theorem get_alert_summary_spec alert_data :
  match get_alert_summary alert_data with
  | None => alert_data = []
  | Some s =>
      alert_data <> []
      /\ summary_total_alerts s = Z.of_nat (length alert_data)
      /\ 0 <= summary_critical_alerts s
      /\ 0 <= summary_high_alerts s
      /\ summary_critical_alerts s + summary_high_alerts s
         <= summary_total_alerts s
            - Z.of_nat (length (List.filter
                                  (fun a => bool_decide (a !! "severity"%string = None))
                                  alert_data))
  end.
Proof.
  destruct alert_data as [|x l]; [done|].
  unfold get_alert_summary. cbn [summary_total_alerts summary_critical_alerts
    summary_high_alerts]. split; [done|]. split; [done|].
  split; [lia|]. split; [lia|].
  pose proof (exclusive_filters _ _ _ (x :: l) severities_exclusive). lia.
Qed.

End Properties.

(* ===================================================================== *)
(** * The scenarios, evaluated *)
(* ===================================================================== *)

(** C1. The cooldown does not suppress the key it was meant for.  The
    BigQuery anomaly is checked (the gate answers true), delivered and
    recorded; two seconds later, far inside the 30 minutes of cooldown,
    the gate answers true again for the same type and service: the
    delivery was recorded under the key "BigQuery", the gate looks up
    "anomaly_BigQuery". *)
Theorem cooldown_key_mismatch :
  result (check_anomaly plain_float_str c1_record) c1_world0 = Ok (Some c1_alert)
  /\ result (send_alert plain_float_str c1_alert) c1_world1 = Ok true
  /\ last_alert_time (manager c1_world2) !! VStr "BigQuery" = Some (demo_clock 3)
  /\ alert_key plain_float_str c1_alert = Ok "anomaly_BigQuery"%string
  /\ last_alert_time (manager c1_world2) !! VStr "anomaly_BigQuery" = None
  /\ next_time c1_world2 = demo_clock 5
  /\ (seconds_between (demo_clock 3) (demo_clock 5)
      < inject_Z (alert_cooldown_minutes cfg_slack * 60))%Q
  /\ result (_should_send_alert plain_float_str c1_alert) c1_world2 = Ok true.
Proof. repeat split; vm_compute; reflexivity. Qed.

(** C2. The hourly rate limit does not limit.  With at most two alerts
    per hour configured, two alerts are delivered between 10:00:00 and
    10:00:10; the gate then accepts a third alert in the same hour, and
    it is delivered too: deliveries are counted under the key
    "2024-03-05T10:00:00", the gate reads the counter "2024-03-05-10". *)
Theorem rate_limit_key_mismatch :
  result (send_alert plain_float_str c2_alert1) c2_world1 = Ok true
  /\ result (send_alert plain_float_str c2_alert2) c2_world3 = Ok true
  /\ max_alerts_per_hour (config (manager c2_world4)) = 2
  /\ alert_count_hourly (manager c2_world4) !! "2024-03-05T10:00:00"%string = Some 2
  /\ alert_count_hourly (manager c2_world4) !! "2024-03-05-10"%string = Some 0
  /\ strftime_hour (next_time c2_world4) = "2024-03-05-10"%string
  /\ result (_should_send_alert plain_float_str c2_alert3) c2_world4 = Ok true
  /\ result (check_anomaly plain_float_str (anomaly_record "Cloud SQL" 90 (9 # 10)))
       c2_world4 = Ok (Some c2_alert3)
  /\ result (send_alert plain_float_str c2_alert3) c2_world5 = Ok true.
Proof. repeat split; vm_compute; reflexivity. Qed.

(** C3. A failed webhook delivery is reported as delivered.  The webhook
    is the only configured channel; it answers with status 500, or the
    POST raises: in both cases [send_alert] returns [True], appends the
    alert to the history and records the delivery. *)
Theorem failed_webhook_reported_delivered :
  (result (send_alert plain_float_str c1_alert) c3_world_500 = Ok true
   /\ webhook_reply (env c3_world_500) 0 = HttpResponse 500
   /\ posts (run (send_alert plain_float_str c1_alert) c3_world_500) = 1%nat
   /\ alert_history (manager (run (send_alert plain_float_str c1_alert) c3_world_500))
      = [c1_alert]
   /\ last_alert_time (manager (run (send_alert plain_float_str c1_alert) c3_world_500))
        !! VStr "BigQuery" = Some (demo_clock 1))
  /\ (result (send_alert plain_float_str c1_alert) c3_world_down = Ok true
      /\ webhook_reply (env c3_world_down) 0 = HttpError
      /\ posts (run (send_alert plain_float_str c1_alert) c3_world_down) = 1%nat
      /\ alert_history (manager (run (send_alert plain_float_str c1_alert) c3_world_down))
         = [c1_alert]).
Proof. repeat split; vm_compute; reflexivity. Qed.


(** C5, counterexample.  On a manager that has just been constructed the
    suppression check adds the entry "2024-03-05-10" to the hourly counter
    map. *)
Lemma gate_writes_counter_counterexample :
  alert_count_hourly (manager c1_world0) !! "2024-03-05-10"%string = None
  /\ alert_count_hourly
       (manager (run (_should_send_alert plain_float_str c1_alert) c1_world0))
       !! "2024-03-05-10"%string = Some 0
  /\ alert_count_hourly
       (manager (run (_should_send_alert plain_float_str c1_alert) c1_world0))
     <> alert_count_hourly (manager c1_world0).
Proof.
  split; [vm_compute; reflexivity|]. split; [vm_compute; reflexivity|].
  intros E. apply (f_equal (fun m => m !! "2024-03-05-10"%string)) in E.
  revert E. vm_compute. discriminate.
Qed.





(** C7 at a manager without channels. *)
Lemma zero_channel_delivery_witness :
  exists w2,
    send_alert plain_float_str c1_alert c7_world0 = (Ok true, w2)
    /\ alert_history (manager w2) = alert_history (manager c7_world0) ++ [c1_alert]
    /\ posts w2 = posts c7_world0 /\ mails w2 = mails c7_world0
    /\ trace w2 = trace c7_world0
                  ++ [EvSleep 1;
                      EvSaveHistory (alert_history (manager c7_world0) ++ [c1_alert])].
Proof.
  assert (H1 : slack_webhook_url (config (manager c7_world0)) = ""%string)
    by (vm_compute; reflexivity).
  assert (H2 : email_smtp_server (config (manager c7_world0)) = ""%string)
    by (vm_compute; reflexivity).
  assert (H3 : _should_send_alert plain_float_str c1_alert c7_world0
               = (Ok true, run (_should_send_alert plain_float_str c1_alert) c7_world0))
    by (apply (run_result (_should_send_alert plain_float_str c1_alert) c7_world0);
        vm_compute; reflexivity).
  exact (zero_channel_delivery plain_float_str c1_alert c7_world0 _ H1 H2 H3).
Defined.



(** C10 at a manager whose configuration allows no alert. *)
Lemma suppressed_send_is_atomic_witness :
  let w := c10_world0 in
  let w1 := run (_should_send_alert plain_float_str c1_alert) c10_world0 in
  send_alert plain_float_str c1_alert w = (Ok false, w1)
  /\ trace w1 = trace w /\ posts w1 = posts w /\ mails w1 = mails w
  /\ alert_history (manager w1) = alert_history (manager w)
  /\ last_alert_time (manager w1) = last_alert_time (manager w)
  /\ (forall k v, alert_count_hourly (manager w) !! k = Some v ->
                  alert_count_hourly (manager w1) !! k = Some v).
Proof.
  intros w w1.
  assert (H : _should_send_alert plain_float_str c1_alert w = (Ok false, w1))
    by (apply (run_result (_should_send_alert plain_float_str c1_alert) c10_world0);
        vm_compute; reflexivity).
  exact (suppressed_send_is_atomic plain_float_str c1_alert w w1 H).
Defined.

(* ===================================================================== *)
(** * The further properties at concrete scenarios *)
(* ===================================================================== *)


(** X2 at a record without previous cost. *)
Lemma check_cost_spike_zero_previous_witness :
  check_cost_spike plain_float_str c6_no_limit c1_world0 = (Ok None, c1_world0).
Proof.
  assert (H : c6_no_limit !! "previous_cost"%string = None)
    by (vm_compute; reflexivity).
  exact (check_cost_spike_zero_previous plain_float_str c6_no_limit c1_world0
           (or_introl H)).
Defined.

(** X3 at a budget of 500 and a cost of 600. *)
Lemma check_budget_exceeded_iff_witness :
  (exists a w', check_budget_exceeded plain_float_str c8_budget_record c1_world0
                = (Ok (Some a), w'))
  <-> (500 < 600)%Q
      /\ exists th, th ∈ thresholds (manager c1_world0)
                    /\ in_scope th (get_default c8_budget_record "service" (VStr "unknown"))
                                "budget_exceeded".
Proof.
  assert (H1 : c8_budget_record !! "current_cost"%string = Some (VNum 600))
    by (vm_compute; reflexivity).
  assert (H2 : c8_budget_record !! "budget_limit"%string = Some (VNum 500))
    by (vm_compute; reflexivity).
  assert (H3 :
    gate (manager c1_world0)
      ("budget_exceeded_"
       +:+ py_str plain_float_str
             (get_default c8_budget_record "service" (VStr "unknown")))
      (clock (env c1_world0) (S (clock_reads c1_world0))) = true)
    by (vm_compute; reflexivity).
  exact (check_budget_exceeded_iff plain_float_str c8_budget_record c1_world0
           600 500 H1 H2 H3).
Defined.

(** X4 at the BigQuery anomaly of C1. *)
Lemma check_anomaly_iff_witness :
  (exists a w', check_anomaly plain_float_str c1_record c1_world0 = (Ok (Some a), w'))
  <-> exists th, th ∈ thresholds (manager c1_world0)
                 /\ in_scope th (get_default c1_record "service" (VStr "unknown"))
                             "anomaly"
                 /\ (threshold_amount th <= 75)%Q.
Proof.
  assert (H1 : c1_record !! "anomaly_score"%string = Some (VNum (9 # 10)))
    by (vm_compute; reflexivity).
  assert (H2 : c1_record !! "cost_impact"%string = Some (VNum 75))
    by (vm_compute; reflexivity).
  assert (H3 :
    gate (manager c1_world0)
      ("anomaly_"
       +:+ py_str plain_float_str (get_default c1_record "service" (VStr "unknown")))
      (clock (env c1_world0) (S (clock_reads c1_world0))) = true)
    by (vm_compute; reflexivity).
  exact (check_anomaly_iff plain_float_str c1_record c1_world0 (9 # 10) 75 H1 H2 H3).
Defined.



(** X7 at the BigQuery alert of C1 on a new manager. *)
Lemma should_send_decision_witness :
  let w := c1_world0 in
  let accepts :=
    (forall last, last_alert_time (manager w) !! VStr "anomaly_BigQuery" = Some last ->
       (inject_Z (alert_cooldown_minutes (config (manager w)) * 60)
        <= seconds_between last (next_time w))%Q)
    /\ hourly_count (manager w) (strftime_hour (next_time w))
       < max_alerts_per_hour (config (manager w)) in
  (result (_should_send_alert plain_float_str c1_alert) w = Ok true <-> accepts)
  /\ (result (_should_send_alert plain_float_str c1_alert) w = Ok false <-> ~ accepts).
Proof.
  assert (H : alert_key plain_float_str c1_alert = Ok "anomaly_BigQuery"%string)
    by (vm_compute; reflexivity).
  exact (should_send_decision plain_float_str c1_alert "anomaly_BigQuery" c1_world0 H).
Defined.

(** X8 at a record that is no alert: it has no type. *)
Lemma send_alert_missing_key_witness :
  exists k,
    c1_record !! k = None
    /\ (k = "type"%string
        \/ (k = "service"%string /\ c1_record !! "type"%string <> None))
    /\ _should_send_alert plain_float_str c1_record c1_world0
       = (Raise (KeyError k), c1_world0)
    /\ send_alert plain_float_str c1_record c1_world0
       = (Raise (KeyError k), c1_world0).
Proof.
  assert (H : c1_record !! "type"%string = None) by (vm_compute; reflexivity).
  exact (send_alert_missing_key plain_float_str c1_record c1_world0 (or_introl H)).
Defined.

(** X9 at the delivery of the BigQuery alert of C1. *)
Lemma send_alert_history_witness :
  config (manager c1_world2) = config (manager c1_world1)
  /\ thresholds (manager c1_world2) = thresholds (manager c1_world1)
  /\ ((Ok true = Ok true
       /\ alert_history (manager c1_world2)
          = alert_history (manager c1_world1) ++ [c1_alert])
      \/ (Ok true <> Ok true
          /\ alert_history (manager c1_world2) = alert_history (manager c1_world1))).
Proof.
  assert (H : send_alert plain_float_str c1_alert c1_world1 = (Ok true, c1_world2))
    by (apply (run_result (send_alert plain_float_str c1_alert) c1_world1);
        vm_compute; reflexivity).
  exact (send_alert_history plain_float_str c1_alert c1_world1 (Ok true) c1_world2 H).
Defined.

(** X10 at the delivery of the BigQuery alert of C1. *)
Lemma delivered_send_bookkeeping_witness :
  let w := c1_world1 in
  let t := clock (env w) (S (clock_reads w)) in
  let hour_key := isoformat (replace_to_hour (clock (env w) (S (S (clock_reads w))))) in
  clock_reads c1_world2 = S (S (S (clock_reads w)))
  /\ last_alert_time (manager c1_world2)
     = <[dict_key (get_default c1_alert "service" (VStr "unknown")) := t]>
         (last_alert_time (manager w))
  /\ hourly_count (manager c1_world2) hour_key = hourly_count (manager w) hour_key + 1
  /\ (forall k, k <> hour_key ->
        hourly_count (manager c1_world2) k = hourly_count (manager w) k).
Proof.
  assert (H : send_alert plain_float_str c1_alert c1_world1 = (Ok true, c1_world2))
    by (apply (run_result (send_alert plain_float_str c1_alert) c1_world1);
        vm_compute; reflexivity).
  exact (delivered_send_bookkeeping plain_float_str c1_alert c1_world1 c1_world2 H).
Defined.

Lemma message_of_ok (o : outcome message) :
  is_ok o = true -> o = Ok (message_of o).
Proof. by destruct o. Qed.

Lemma record_of_ok (o : outcome dict) :
  is_ok o = true -> o = Ok (record_of o).
Proof. by destruct o. Qed.

Lemma c1_world2_history : alert_history (manager c1_world2) = [c1_alert].
Proof. vm_compute. reflexivity. Qed.

Lemma c1_world2_parses : timestamps_parse (alert_history (manager c1_world2)).
Proof.
  rewrite c1_world2_history. constructor; [|constructor].
  exists (isoformat (demo_clock 0)), (demo_clock 0).
  split; vm_compute; reflexivity.
Qed.

Lemma c1_world2_keyed : keyed (alert_history (manager c1_world2)).
Proof.
  rewrite c1_world2_history. constructor; [|constructor].
  split; eexists; vm_compute; reflexivity.
Qed.

Lemma poisoned_world_history :
  alert_history (manager poisoned_world) = [untimestamped_alert].
Proof. vm_compute. reflexivity. Qed.

(** X11 at an SMTP server configured without credentials. *)
Lemma incomplete_email_is_skipped_witness :
  exists w2,
    send_alert plain_float_str c1_alert half_email_world = (Ok true, w2)
    /\ mails w2 = mails half_email_world /\ posts w2 = posts half_email_world
    /\ alert_history (manager w2)
       = alert_history (manager half_email_world) ++ [c1_alert].
Proof.
  assert (H1 : slack_webhook_url (config (manager half_email_world)) = ""%string)
    by (vm_compute; reflexivity).
  assert (H2 : email_smtp_server (config (manager half_email_world)) <> ""%string)
    by (vm_compute; discriminate).
  assert (H3 : email_username (config (manager half_email_world)) = ""%string)
    by (vm_compute; reflexivity).
  assert (H4 : _should_send_alert plain_float_str c1_alert half_email_world
               = (Ok true,
                  run (_should_send_alert plain_float_str c1_alert) half_email_world))
    by (apply (run_result (_should_send_alert plain_float_str c1_alert)
                 half_email_world);
        vm_compute; reflexivity).
  exact (incomplete_email_is_skipped plain_float_str c1_alert half_email_world _
           H1 H2 (or_introl H3) H4).
Defined.

(** X12 at an email channel whose SMTP sessions fail. *)
Lemma smtp_failure_not_delivered_witness :
  exists w2,
    send_alert plain_float_str c1_alert email_down_world = (Ok false, w2)
    /\ alert_history (manager w2) = alert_history (manager email_down_world)
    /\ last_alert_time (manager w2) = last_alert_time (manager email_down_world)
    /\ (forall k, hourly_count (manager w2) k
                  = hourly_count (manager email_down_world) k).
Proof.
  assert (H1 : email_complete (config (manager email_down_world)) = true)
    by (vm_compute; reflexivity).
  assert (H2 : smtp_reply (env email_down_world) (mails email_down_world)
               = SmtpFailure) by reflexivity.
  assert (H3 : _should_send_alert plain_float_str c1_alert email_down_world
               = (Ok true,
                  run (_should_send_alert plain_float_str c1_alert) email_down_world))
    by (apply (run_result (_should_send_alert plain_float_str c1_alert)
                 email_down_world);
        vm_compute; reflexivity).
  exact (smtp_failure_not_delivered plain_float_str c1_alert email_down_world _
           H1 H2 H3).
Defined.

(** X13 at an alert that has a type and a service only. *)
Lemma alert_without_timestamp_not_delivered_witness :
  exists w2,
    send_alert plain_float_str untimestamped_alert c1_world0 = (Ok false, w2)
    /\ posts w2 = posts c1_world0 /\ mails w2 = mails c1_world0
    /\ alert_history (manager w2) = alert_history (manager c1_world0).
Proof.
  assert (H1 : slack_webhook_url (config (manager c1_world0)) <> ""%string)
    by (vm_compute; discriminate).
  assert (H2 : untimestamped_alert !! "timestamp"%string = None)
    by (vm_compute; reflexivity).
  assert (H3 : _should_send_alert plain_float_str untimestamped_alert c1_world0
               = (Ok true,
                  run (_should_send_alert plain_float_str untimestamped_alert)
                    c1_world0))
    by (apply (run_result (_should_send_alert plain_float_str untimestamped_alert)
                 c1_world0);
        vm_compute; reflexivity).
  exact (alert_without_timestamp_not_delivered plain_float_str untimestamped_alert
           c1_world0 _ H1 H2 H3).
Defined.

(** X14 at a webhook that answers and an SMTP server that fails. *)
Lemma partial_failure_posts_to_slack_witness :
  exists w2,
    send_alert plain_float_str c1_alert both_down_world = (Ok false, w2)
    /\ posts w2 = S (posts both_down_world)
    /\ alert_history (manager w2) = alert_history (manager both_down_world)
    /\ last_alert_time (manager w2) = last_alert_time (manager both_down_world).
Proof.
  assert (H1 : slack_webhook_url (config (manager both_down_world)) <> ""%string)
    by (vm_compute; discriminate).
  assert (H2 : slack_text c1_alert = Ok (message_of (slack_text c1_alert)))
    by (apply message_of_ok; vm_compute; reflexivity).
  assert (H3 : email_complete (config (manager both_down_world)) = true)
    by (vm_compute; reflexivity).
  assert (H4 : smtp_reply (env both_down_world) (mails both_down_world)
               = SmtpFailure) by reflexivity.
  assert (H5 : _should_send_alert plain_float_str c1_alert both_down_world
               = (Ok true,
                  run (_should_send_alert plain_float_str c1_alert) both_down_world))
    by (apply (run_result (_should_send_alert plain_float_str c1_alert)
                 both_down_world);
        vm_compute; reflexivity).
  exact (partial_failure_posts_to_slack plain_float_str c1_alert _ both_down_world _
           H1 H2 H3 H4 H5).
Defined.




(** X18 at a history that holds an alert without timestamp. *)
Lemma get_alert_history_bad_record_witness :
  exists e w', get_alert_history 24 poisoned_world = (Raise e, w').
Proof.
  assert (H1 : untimestamped_alert ∈ alert_history (manager poisoned_world))
    by (rewrite poisoned_world_history; left).
  assert (H2 : untimestamped_alert !! "timestamp"%string = None)
    by (vm_compute; reflexivity).
  exact (get_alert_history_bad_record 24 poisoned_world untimestamped_alert
           H1 (or_introl H2)).
Defined.

(** X19 at a manager without channels. *)
Lemma untimestamped_alert_poisons_history_witness :
  exists w2,
    send_alert plain_float_str untimestamped_alert c7_world0 = (Ok true, w2)
    /\ forall hours, exists e w3, get_alert_history hours w2 = (Raise e, w3).
Proof.
  assert (H1 : slack_webhook_url (config (manager c7_world0)) = ""%string)
    by (vm_compute; reflexivity).
  assert (H2 : email_smtp_server (config (manager c7_world0)) = ""%string)
    by (vm_compute; reflexivity).
  assert (H3 : untimestamped_alert !! "timestamp"%string = None)
    by (vm_compute; reflexivity).
  assert (H4 : _should_send_alert plain_float_str untimestamped_alert c7_world0
               = (Ok true,
                  run (_should_send_alert plain_float_str untimestamped_alert)
                    c7_world0))
    by (apply (run_result (_should_send_alert plain_float_str untimestamped_alert)
                 c7_world0);
        vm_compute; reflexivity).
  exact (untimestamped_alert_poisons_history plain_float_str untimestamped_alert
           c7_world0 _ H1 H2 H3 H4).
Defined.

(** X20 at the delivery of the BigQuery alert of C1. *)
Lemma history_records_are_keyed_witness :
  keyed (alert_history (manager c1_world2)).
Proof.
  assert (H0 : alert_history (manager c1_world1) = []) by (vm_compute; reflexivity).
  assert (H1 : keyed (alert_history (manager c1_world1)))
    by (rewrite H0; constructor).
  assert (H2 : send_alert plain_float_str c1_alert c1_world1 = (Ok true, c1_world2))
    by (apply (run_result (send_alert plain_float_str c1_alert) c1_world1);
        vm_compute; reflexivity).
  exact (history_records_are_keyed plain_float_str c1_alert c1_world1 (Ok true)
           c1_world2 H1 H2).
Defined.


(** X22 at an anomalies file of two records. *)
Lemma trigger_alerts_ledger_witness :
  let anomalies := [file_record1; file_record2] in
  let w' := run (trigger_alerts plain_float_str (Some cfg_slack) None anomalies)
              c7_world0 in
  config (manager w') = cfg_slack
  /\ (length (alert_history (manager w')) <= length anomalies)%nat
  /\ Forall (alert_of_record anomalies) (alert_history (manager w'))
  /\ (posts w' <= posts c7_world0 + length anomalies)%nat.
Proof.
  intros anomalies w'.
  assert (H : trigger_alerts plain_float_str (Some cfg_slack) None anomalies c7_world0
              = (result (trigger_alerts plain_float_str (Some cfg_slack) None anomalies)
                   c7_world0, w'))
    by (apply (run_result
                 (trigger_alerts plain_float_str (Some cfg_slack) None anomalies)
                 c7_world0); reflexivity).
  exact (trigger_alerts_ledger plain_float_str cfg_slack None anomalies c7_world0
           _ w' H).
Defined.

(** X23 at an anomalies file whose second record has no date. *)
Lemma trigger_alerts_stops_at_unprintable_witness :
  exists e,
    trigger_alerts plain_float_str (Some cfg_slack) None
      ([file_record1] ++ undated_record :: [file_record2]) c7_world0
    = (Raise e,
       snd (trigger_alerts plain_float_str (Some cfg_slack) None [file_record1]
              c7_world0)).
Proof.
  assert (H : is_ok (print_anomaly undated_record) = false)
    by (vm_compute; reflexivity).
  exact (trigger_alerts_stops_at_unprintable plain_float_str cfg_slack None
           [file_record1] undated_record [file_record2] c7_world0 H).
Defined.

(** X24 at a record that is 120 percent above the expected cost and
    calls itself of low severity. *)
Lemma percentage_diff_sets_severity_witness :
  let a := candidate_of (result (check_anomaly plain_float_str pipeline_data)
                           c1_world0) in
  a !! "anomaly_score"%string = Some (VNum (120 / 100))
  /\ a !! "severity"%string
     = Some (VStr (if Qlt_bool 80 120 then "high" else "medium"))
  /\ a !! "service"%string
     = Some (get_or pipeline_record "service_desc"
               (get_default pipeline_record "service" (VStr "unknown"))).
Proof.
  intros a.
  assert (H1 : pipeline_record !! "percentage_diff"%string = Some (VNum 120))
    by (vm_compute; reflexivity).
  assert (H2 : anomaly_data_of pipeline_record = Ok pipeline_data)
    by (apply record_of_ok; vm_compute; reflexivity).
  assert (H3 : check_anomaly plain_float_str pipeline_data c1_world0
               = (Ok (Some a), run (check_anomaly plain_float_str pipeline_data)
                                 c1_world0))
    by (apply (candidate_run (check_anomaly plain_float_str pipeline_data) c1_world0);
        vm_compute; reflexivity).
  exact (percentage_diff_sets_severity plain_float_str pipeline_record 120
           pipeline_data c1_world0 a _ H1 H2 H3).
Defined.

